(** * A shallow embedding of [blackjack.py]

    The card model, the shoe, hand totals, the winner rules and the round
    body of [BlackjackGame.play], each translated from the Python source,
    followed by the properties of the game-rule engine.

    Conventions.
    - Python integers are unbounded: [Z].
    - Python values whose type the source does not fix (the two arguments
      of [Card]) are values of [pyval].
    - A Python exception is [Raise e]; every function that can raise
      returns a [result].
    - [random.shuffle] is a parameter: a function on a generator state.
    - [input()] reads from a list of lines.  [print], [display_state] and
      [display_statistics] are not modelled: they only read the state.
    - Loops that the source bounds by nothing but the data ([dealer_play],
      the outer loop of [play]) take a bound on their iterations;
      [OutOfFuel] reports that the bound was too small and is not a
      behaviour of the program. *)

From Stdlib Require Import ZArith List String Ascii Bool Lia Permutation.
From Stdlib Require Import DecimalString.
Import ListNotations.

Local Open Scope string_scope.
Local Open Scope list_scope.
Local Open Scope Z_scope.

(** ** Exceptions and results *)

(** The exceptions of the embedded code.  [InvalidCardSpec] is the error
    named by the specification of [Card]; no function of the source
    raises it. *)
Inductive exn : Type :=
| ValueError
| TypeError
| IndexError
| EOFError
| OverflowError
| InvalidCardSpec.

Inductive result (A : Type) : Type :=
| Ok (a : A)
| Raise (e : exn)
| OutOfFuel.

Arguments Ok {A} a.
Arguments Raise {A} e.
Arguments OutOfFuel {A}.

Definition bind {A B : Type} (m : result A) (k : A -> result B) : result B :=
  match m with
  | Ok a => k a
  | Raise e => Raise e
  | OutOfFuel => OutOfFuel
  end.

Notation "x <- m ;; k" := (bind m (fun x => k))
  (at level 61, m at next level, right associativity).
Notation "' pat <- m ;; k" := (bind m (fun x => match x with pat => k end))
  (at level 61, pat pattern, m at next level, right associativity).

Fixpoint mapM {A B : Type} (f : A -> result B) (l : list A) : result (list B) :=
  match l with
  | [] => Ok []
  | a :: l' => b <- f a ;; bs <- mapM f l' ;; Ok (b :: bs)
  end.

(** ** Python values *)

Inductive Suit : Type := HEARTS | DIAMONDS | CLUBS | SPADES.

(** [for suit in Suit] walks the members in definition order. *)
Definition all_suits : list Suit := [HEARTS; DIAMONDS; CLUBS; SPADES].

Definition Suit_eqb (a b : Suit) : bool :=
  match a, b with
  | HEARTS, HEARTS | DIAMONDS, DIAMONDS | CLUBS, CLUBS | SPADES, SPADES => true
  | _, _ => false
  end.

(** What a caller can hand to [Card(suit, rank)]: a member of [Suit], a
    string or an integer. *)
Inductive pyval : Type :=
| VSuit (s : Suit)
| VStr (s : string)
| VInt (z : Z).

(** [a == b]; values of different types are unequal. *)
Definition pyval_eqb (a b : pyval) : bool :=
  match a, b with
  | VSuit x, VSuit y => Suit_eqb x y
  | VStr x, VStr y => String.eqb x y
  | VInt x, VInt y => Z.eqb x y
  | _, _ => false
  end.

(** [a in l] *)
Definition pyval_in (a : pyval) (l : list pyval) : bool :=
  existsb (pyval_eqb a) l.

(** *** [int(s)] on a string

    Base ten: surrounding white space is dropped, one sign is allowed,
    then digits, where a single underscore may stand between two digits.
    Anything else is a [ValueError].  Digits outside ASCII and the
    interpreter's limit on the number of digits are not modelled. *)

Definition is_space (c : ascii) : bool :=
  let n := nat_of_ascii c in
  (((9 <=? n) && (n <=? 13)) || ((28 <=? n) && (n <=? 32)))%nat.

Fixpoint lstrip (s : string) : string :=
  match s with
  | String c r => if is_space c then lstrip r else s
  | EmptyString => s
  end.

Fixpoint string_rev (s : string) : string :=
  match s with
  | String c r => String.append (string_rev r) (String c EmptyString)
  | EmptyString => EmptyString
  end.

Definition strip (s : string) : string :=
  string_rev (lstrip (string_rev (lstrip s))).

Definition digit_of (c : ascii) : option Z :=
  let n := nat_of_ascii c in
  if ((48 <=? n) && (n <=? 57))%nat then Some (Z.of_nat n - 48) else None.

(** [prev] tells whether the character before was a digit. *)
Fixpoint digits (s : string) (acc : Z) (prev : bool) : option Z :=
  match s with
  | EmptyString => if prev then Some acc else None
  | String c r =>
      match digit_of c with
      | Some d => digits r (10 * acc + d) true
      | None => if Ascii.eqb c "_" && prev then digits r acc false else None
      end
  end.

Definition int_of_str (s : string) : result Z :=
  let body :=
    match strip s with
    | String "-" r => option_map Z.opp (digits r 0 false)
    | String "+" r => digits r 0 false
    | r => digits r 0 false
    end in
  match body with
  | Some z => Ok z
  | None => Raise ValueError
  end.

(** [int(v)] *)
Definition py_int (v : pyval) : result Z :=
  match v with
  | VInt z => Ok z
  | VStr s => int_of_str s
  | VSuit _ => Raise TypeError
  end.

(** [s.lower()], as far as the comparisons with ['h'], ['s'], ['d'] and
    ['y'] can tell: the ASCII capitals are the only characters that
    lower-case to an ASCII letter of those four. *)
Definition lower_ascii (c : ascii) : ascii :=
  let n := nat_of_ascii c in
  if ((65 <=? n) && (n <=? 90))%nat then ascii_of_nat (n + 32) else c.

Fixpoint lower (s : string) : string :=
  match s with
  | String c r => String (lower_ascii c) (lower r)
  | EmptyString => EmptyString
  end.

(** *** Numbers: [int] and [float]

    A finite binary64 value is [mant * 2 ^ expo]; the only float literal
    of the source is [2.5 = 5 * 2 ^ -1].  Arithmetic rounds to 53
    significant bits, ties to even; a result of magnitude [2 ^ 1024] or
    more is infinite.  Values below the normal range do not occur: every
    float the program forms is an integer times [2.5]. *)

Record dyadic : Type := Dy { mant : Z; expo : Z }.

Inductive pyfloat : Type :=
| Fin (d : dyadic)
| Inf.

Inductive pynum : Type :=
| NInt (z : Z)
| NFloat (d : dyadic).

Definition bit_length (m : Z) : Z :=
  if Z.abs m =? 0 then 0 else Z.log2 (Z.abs m) + 1.

(** Round [m * 2 ^ e] to 53 significant bits, ties to even. *)
Definition round53 (m e : Z) : dyadic :=
  let a := Z.abs m in
  let k := bit_length m in
  if k <=? 53 then Dy m e
  else
    let s := k - 53 in
    let q := Z.shiftr a s in
    let r := a mod 2 ^ s in
    let half := 2 ^ (s - 1) in
    let q' := if (half <? r) || ((r =? half) && Z.odd q) then q + 1 else q in
    Dy (Z.sgn m * q') (e + s).

Definition to_float (d : dyadic) : pyfloat :=
  if 1024 <? bit_length (mant d) + expo d then Inf else Fin d.

(** [float(n)] as done by [n * x] for a float [x]: too large an integer
    raises [OverflowError]. *)
Definition float_of_int (n : Z) : result dyadic :=
  match to_float (round53 n 0) with
  | Fin d => Ok d
  | Inf => Raise OverflowError
  end.

Definition float_mul (x y : dyadic) : pyfloat :=
  to_float (round53 (mant x * mant y) (expo x + expo y)).

(** [n * m] for an integer [n] *)
Definition int_mul (n : Z) (m : pynum) : result (Z + pyfloat) :=
  match m with
  | NInt k => Ok (inl (n * k))
  | NFloat y => x <- float_of_int n ;; Ok (inr (float_mul x y))
  end.

(** [int(x)]: a float is truncated toward zero. *)
Definition int_of_num (x : Z + pyfloat) : result Z :=
  match x with
  | inl z => Ok z
  | inr (Fin d) =>
      Ok (if 0 <=? expo d then mant d * 2 ^ expo d
          else Z.quot (mant d) (2 ^ (- expo d)))
  | inr Inf => Raise OverflowError
  end.

(** [m > 0] *)
Definition num_pos (m : pynum) : bool :=
  match m with
  | NInt k => 0 <? k
  | NFloat d => 0 <? mant d
  end.

Definition two_and_a_half : dyadic := Dy 5 (-1).

(** [int(bet * multiplier)] *)
Definition int_times (bet : Z) (multiplier : pynum) : result Z :=
  x <- int_mul bet multiplier ;; int_of_num x.

(** ** Card *)

Module Card.

Record t : Type := mk { suit : pyval; rank : pyval }.

(** [Card(suit, rank)]: [__init__] stores both arguments. *)
Definition init (suit rank : pyval) : result t :=
  Ok (mk suit rank).

Definition get_value (self : t) : result Z :=
  if pyval_in (rank self) [VStr "J"; VStr "Q"; VStr "K"] then Ok 10
  else if pyval_eqb (rank self) (VStr "A") then Ok 11
  else py_int (rank self).

End Card.

(** ** Hand *)

Module Hand.

Record t : Type := mk { cards : list Card.t }.

Definition init : t := mk [].

Definition add_card (self : t) (card : Card.t) : t :=
  mk (cards self ++ [card]).

(** The [for] loop of [get_value]: running [value] and [aces]. *)
Fixpoint tally (cs : list Card.t) (value : Z) (aces : nat) : result (Z * nat) :=
  match cs with
  | [] => Ok (value, aces)
  | card :: rest =>
      v <- Card.get_value card ;;
      tally rest (value + v)
            (if pyval_eqb (Card.rank card) (VStr "A") then S aces else aces)
  end.

(** [while value > 21 and aces > 0: value -= 10; aces -= 1] *)
Fixpoint adjust (aces : nat) (value : Z) : Z :=
  match aces with
  | O => value
  | S aces' => if 21 <? value then adjust aces' (value - 10) else value
  end.

Definition get_value (self : t) : result Z :=
  '(value, aces) <- tally (cards self) 0 0 ;;
  Ok (adjust aces value).

(** [len(self.cards) == 2 and self.get_value() == 21]; the total is not
    computed when the length differs from 2. *)
Definition is_blackjack (self : t) : result bool :=
  if (List.length (cards self) =? 2)%nat
  then v <- get_value self ;; Ok (v =? 21)
  else Ok false.

End Hand.

(** ** Deck *)

Module Deck.

Record t : Type := mk { cards : list Card.t; num_decks : Z }.

Definition ranks : list string :=
  ["2"; "3"; "4"; "5"; "6"; "7"; "8"; "9"; "10"; "J"; "Q"; "K"; "A"].

(** [for suit in Suit: for rank in ranks: append(Card(suit, rank))] *)
Definition one_deck : result (list Card.t) :=
  mapM (fun sr => Card.init (VSuit (fst sr)) (VStr (snd sr)))
       (list_prod all_suits ranks).

(** [for _ in range(num_decks)], appending to [acc] *)
Fixpoint build (n : nat) (acc : list Card.t) : result (list Card.t) :=
  match n with
  | O => Ok acc
  | S n' => d <- one_deck ;; build n' (acc ++ d)
  end.

(** [self.cards.pop()]: the last element, [IndexError] on an empty list *)
Definition pop (l : list Card.t) : result (Card.t * list Card.t) :=
  match rev l with
  | [] => Raise IndexError
  | c :: r => Ok (c, rev r)
  end.

Section Shuffle.

(** The state of the [random] module and [random.shuffle] on it. *)
Variable rng : Type.
Variable shuffle : rng -> list Card.t -> list Card.t * rng.

Definition reset (self : t) (g : rng) : result (t * rng) :=
  cs <- build (Z.to_nat (num_decks self)) [] ;;
  let (cs', g') := shuffle g cs in
  Ok (mk cs' (num_decks self), g').

Definition init (num_decks : Z) (g : rng) : result (t * rng) :=
  reset (mk [] num_decks) g.

Definition draw (self : t) (g : rng) : result (Card.t * t * rng) :=
  '(self1, g1) <- (if (List.length (cards self) <? 10)%nat
                   then reset self g else Ok (self, g)) ;;
  '(c, rest) <- pop (cards self1) ;;
  Ok (c, mk rest (num_decks self1), g1).

End Shuffle.

End Deck.

(** ** BlackjackGame *)

Module BlackjackGame.

Record t : Type := mk {
  deck : Deck.t;
  player_hand : Hand.t;
  dealer_hand : Hand.t;
  player_balance : Z;
  starting_balance : Z;
  current_bet : Z;
  wins : Z;
  losses : Z;
  pushes : Z;
  blackjacks : Z;
  busts : Z;
  total_wagered : Z;
  total_won : Z
}.

(** Assignments to one attribute. *)
Definition set_deck (s : t) (x : Deck.t) : t :=
  mk x (player_hand s) (dealer_hand s) (player_balance s) (starting_balance s)
     (current_bet s) (wins s) (losses s) (pushes s) (blackjacks s) (busts s)
     (total_wagered s) (total_won s).
Definition set_player_hand (s : t) (x : Hand.t) : t :=
  mk (deck s) x (dealer_hand s) (player_balance s) (starting_balance s)
     (current_bet s) (wins s) (losses s) (pushes s) (blackjacks s) (busts s)
     (total_wagered s) (total_won s).
Definition set_dealer_hand (s : t) (x : Hand.t) : t :=
  mk (deck s) (player_hand s) x (player_balance s) (starting_balance s)
     (current_bet s) (wins s) (losses s) (pushes s) (blackjacks s) (busts s)
     (total_wagered s) (total_won s).
Definition set_player_balance (s : t) (x : Z) : t :=
  mk (deck s) (player_hand s) (dealer_hand s) x (starting_balance s)
     (current_bet s) (wins s) (losses s) (pushes s) (blackjacks s) (busts s)
     (total_wagered s) (total_won s).
Definition set_current_bet (s : t) (x : Z) : t :=
  mk (deck s) (player_hand s) (dealer_hand s) (player_balance s)
     (starting_balance s) x (wins s) (losses s) (pushes s) (blackjacks s)
     (busts s) (total_wagered s) (total_won s).
Definition set_wins (s : t) (x : Z) : t :=
  mk (deck s) (player_hand s) (dealer_hand s) (player_balance s)
     (starting_balance s) (current_bet s) x (losses s) (pushes s)
     (blackjacks s) (busts s) (total_wagered s) (total_won s).
Definition set_losses (s : t) (x : Z) : t :=
  mk (deck s) (player_hand s) (dealer_hand s) (player_balance s)
     (starting_balance s) (current_bet s) (wins s) x (pushes s)
     (blackjacks s) (busts s) (total_wagered s) (total_won s).
Definition set_pushes (s : t) (x : Z) : t :=
  mk (deck s) (player_hand s) (dealer_hand s) (player_balance s)
     (starting_balance s) (current_bet s) (wins s) (losses s) x
     (blackjacks s) (busts s) (total_wagered s) (total_won s).
Definition set_blackjacks (s : t) (x : Z) : t :=
  mk (deck s) (player_hand s) (dealer_hand s) (player_balance s)
     (starting_balance s) (current_bet s) (wins s) (losses s) (pushes s) x
     (busts s) (total_wagered s) (total_won s).
Definition set_busts (s : t) (x : Z) : t :=
  mk (deck s) (player_hand s) (dealer_hand s) (player_balance s)
     (starting_balance s) (current_bet s) (wins s) (losses s) (pushes s)
     (blackjacks s) x (total_wagered s) (total_won s).
Definition set_total_wagered (s : t) (x : Z) : t :=
  mk (deck s) (player_hand s) (dealer_hand s) (player_balance s)
     (starting_balance s) (current_bet s) (wins s) (losses s) (pushes s)
     (blackjacks s) (busts s) x (total_won s).
Definition set_total_won (s : t) (x : Z) : t :=
  mk (deck s) (player_hand s) (dealer_hand s) (player_balance s)
     (starting_balance s) (current_bet s) (wins s) (losses s) (pushes s)
     (blackjacks s) (busts s) (total_wagered s) x.

(** [a and b]: [b] is evaluated only when [a] is true. *)
Definition py_and (a b : result bool) : result bool :=
  x <- a ;; if x then b else Ok false.

Definition py_not (a : result bool) : result bool :=
  x <- a ;; Ok (negb x).

Definition determine_winner (self : t) : result (pynum * string * t) :=
  player_value <- Hand.get_value (player_hand self) ;;
  dealer_value <- Hand.get_value (dealer_hand self) ;;
  if 21 <? player_value then
    let self := set_busts self (busts self + 1) in
    let self := set_losses self (losses self + 1) in
    Ok (NInt (-1), "Player busted! Dealer wins.", self)
  else if 21 <? dealer_value then
    Ok (NInt 2, "Dealer busted! Player wins!", set_wins self (wins self + 1))
  else
    c <- py_and (Hand.is_blackjack (player_hand self))
                (py_not (Hand.is_blackjack (dealer_hand self))) ;;
    if c then
      let self := set_wins self (wins self + 1) in
      let self := set_blackjacks self (blackjacks self + 1) in
      Ok (NFloat two_and_a_half, "Blackjack! Player wins!", self)
    else
      c <- py_and (Hand.is_blackjack (dealer_hand self))
                  (py_not (Hand.is_blackjack (player_hand self))) ;;
      if c then
        Ok (NInt (-1), "Dealer has blackjack. Dealer wins.",
            set_losses self (losses self + 1))
      else
        c <- py_and (Hand.is_blackjack (player_hand self))
                    (Hand.is_blackjack (dealer_hand self)) ;;
        if c then
          Ok (NInt 1, "Both have blackjack. Push!",
              set_pushes self (pushes self + 1))
        else if dealer_value <? player_value then
          Ok (NInt 2, "Player wins!", set_wins self (wins self + 1))
        else if player_value <? dealer_value then
          Ok (NInt (-1), "Dealer wins.", set_losses self (losses self + 1))
        else
          Ok (NInt 1, "Push! It's a tie.", set_pushes self (pushes self + 1)).

(** The bet loop of [play]: a line that is no integer ([ValueError]) or
    an integer outside [1 .. balance] asks again. *)
Fixpoint get_bet (lines : list string) (self : t) : result (t * list string) :=
  match lines with
  | [] => Raise EOFError
  | line :: rest =>
      match int_of_str line with
      | Ok bet =>
          if (bet <=? 0) || (player_balance self <? bet) then get_bet rest self
          else
            let self := set_current_bet self bet in
            let self := set_total_wagered self (total_wagered self + bet) in
            let self := set_player_balance self (player_balance self - bet) in
            Ok (self, rest)
      | Raise ValueError => get_bet rest self
      | Raise e => Raise e
      | OutOfFuel => OutOfFuel
      end
  end.

(** How one pass through the body of [while self.player_balance > 0]
    ends: at the loop test again ([continue], or the end of the body),
    or out of the loop ([break]). *)
Inductive flow : Type := Continue | Break.

Section Play.

Variable rng : Type.
Variable shuffle : rng -> list Card.t -> list Card.t * rng.

Definition init (g : rng) : result (t * rng) :=
  '(d, g') <- Deck.init rng shuffle 6 g ;;
  Ok (mk d Hand.init Hand.init 1000 1000 0 0 0 0 0 0 0 0, g').

(** [self.player_hand.add_card(self.deck.draw())] *)
Definition deal_player (self : t) (g : rng) : result (t * rng) :=
  '(c, d, g') <- Deck.draw rng shuffle (deck self) g ;;
  Ok (set_player_hand (set_deck self d) (Hand.add_card (player_hand self) c), g').

(** [self.dealer_hand.add_card(self.deck.draw())] *)
Definition deal_dealer (self : t) (g : rng) : result (t * rng) :=
  '(c, d, g') <- Deck.draw rng shuffle (deck self) g ;;
  Ok (set_dealer_hand (set_deck self d) (Hand.add_card (dealer_hand self) c), g').

Definition start_round (self : t) (g : rng) : result (t * rng) :=
  let self := set_player_hand self Hand.init in
  let self := set_dealer_hand self Hand.init in
  '(self, g) <- deal_player self g ;;
  '(self, g) <- deal_dealer self g ;;
  '(self, g) <- deal_player self g ;;
  deal_dealer self g.

Definition player_hit (self : t) (g : rng) : result (bool * t * rng) :=
  '(self, g) <- deal_player self g ;;
  v <- Hand.get_value (player_hand self) ;;
  Ok (v <=? 21, self, g).

(** [while self.dealer_hand.get_value() < 17: ...], at most [fuel]
    draws. *)
Fixpoint dealer_play (fuel : nat) (self : t) (g : rng) : result (t * rng) :=
  v <- Hand.get_value (dealer_hand self) ;;
  if v <? 17 then
    match fuel with
    | O => OutOfFuel
    | S fuel' =>
        '(self, g) <- deal_dealer self g ;;
        dealer_play fuel' self g
    end
  else Ok (self, g).

(** The player's turn: the [while True] loop over the actions.  The
    result tells whether the player busted. *)
Fixpoint player_turn (lines : list string) (doubled : bool) (self : t) (g : rng)
  : result (bool * t * rng * list string) :=
  match lines with
  | [] => Raise EOFError
  | line :: rest =>
      let action := lower line in
      if String.eqb action "h" then
        '(ok, self, g) <- player_hit self g ;;
        if negb ok then Ok (true, self, g, rest)
        else player_turn rest doubled self g
      else if String.eqb action "s" then Ok (false, self, g, rest)
      else if String.eqb action "d"
              && (List.length (Hand.cards (player_hand self)) =? 2)%nat
              && negb doubled then
        if player_balance self <? current_bet self then
          player_turn rest doubled self g
        else
          let self := set_player_balance self (player_balance self - current_bet self) in
          let self := set_current_bet self (current_bet self * 2) in
          let self := set_total_wagered self (total_wagered self + current_bet self / 2) in
          '(ok, self, g) <- player_hit self g ;;
          Ok (negb ok, self, g, rest)
      else player_turn rest doubled self g
  end.

(** [if not bust:] dealer plays, winner determined, payout booked. *)
Definition settle (fuel : nat) (self : t) (g : rng) : result (t * rng) :=
  '(self, g) <- dealer_play fuel self g ;;
  '(multiplier, _, self) <- determine_winner self ;;
  payout <- int_times (current_bet self) multiplier ;;
  let self := set_player_balance self (player_balance self + payout) in
  Ok (if num_pos multiplier
      then set_total_won self (total_won self + payout) else self, g).

(** [Ask to play again] *)
Definition play_again (lines : list string) (self : t) (g : rng)
  : result (flow * t * rng * list string) :=
  if player_balance self <=? 0 then Ok (Continue, self, g, lines)
  else
    match lines with
    | [] => Raise EOFError
    | line :: rest =>
        if negb (String.eqb (lower line) "y") then Ok (Break, self, g, rest)
        else Ok (Continue, self, g, rest)
    end.

(** One pass through the body of the outer loop of [play]. *)
Definition round (fuel : nat) (lines : list string) (self : t) (g : rng)
  : result (flow * t * rng * list string) :=
  '(self, lines) <- get_bet lines self ;;
  '(self, g) <- start_round self g ;;
  dealer_bj <- Hand.is_blackjack (dealer_hand self) ;;
  if dealer_bj then
    player_bj <- Hand.is_blackjack (player_hand self) ;;
    if player_bj then
      let self := set_pushes self (pushes self + 1) in
      let self := set_player_balance self (player_balance self + current_bet self) in
      Ok (Continue, self, g, lines)
    else
      Ok (Continue, set_losses self (losses self + 1), g, lines)
  else
    player_bj <- Hand.is_blackjack (player_hand self) ;;
    if player_bj then
      win_amount <- int_times (current_bet self) (NFloat two_and_a_half) ;;
      let self := set_wins self (wins self + 1) in
      let self := set_blackjacks self (blackjacks self + 1) in
      let self := set_total_won self (total_won self + win_amount) in
      let self := set_player_balance self (player_balance self + win_amount) in
      Ok (Continue, self, g, lines)
    else
      '(bust, self, g, lines) <- player_turn lines false self g ;;
      '(self, g) <- (if negb bust then settle fuel self g else Ok (self, g)) ;;
      play_again lines self g.

(** [play]: the outer loop, at most [rounds] passes. *)
Fixpoint play_loop (rounds fuel : nat) (lines : list string) (self : t) (g : rng)
  : result (t * rng * list string) :=
  if 0 <? player_balance self then
    match rounds with
    | O => OutOfFuel
    | S rounds' =>
        '(f, self, g, lines) <- round fuel lines self g ;;
        match f with
        | Continue => play_loop rounds' fuel lines self g
        | Break => Ok (self, g, lines)
        end
    end
  else Ok (self, g, lines).

(** Every pass reads at least the line of the bet, so one pass more
    than there are lines is enough. *)
Definition play (fuel : nat) (lines : list string) (self : t) (g : rng)
  : result (t * rng * list string) :=
  play_loop (S (List.length lines)) fuel lines self g.

End Play.

End BlackjackGame.

(** ** Display

    [Card.__str__], [Hand.__str__] and [display_state], with the text
    written to standard output as a string of bytes (UTF-8). *)

(** [suit.value] *)
Definition Suit_value (s : Suit) : string :=
  match s with
  | HEARTS => "♥"
  | DIAMONDS => "♦"
  | CLUBS => "♣"
  | SPADES => "♠"
  end.

(** [str(suit)] *)
Definition Suit_str (s : Suit) : string :=
  match s with
  | HEARTS => "Suit.HEARTS"
  | DIAMONDS => "Suit.DIAMONDS"
  | CLUBS => "Suit.CLUBS"
  | SPADES => "Suit.SPADES"
  end.

(** [str(n)] for an integer *)
Definition int_str (z : Z) : string := NilZero.string_of_int (Z.to_int z).

(** A value inside an f-string *)
Definition pyval_str (v : pyval) : string :=
  match v with
  | VStr s => s
  | VInt z => int_str z
  | VSuit s => Suit_str s
  end.

(** What stops a print: [self.suit.value] on what is no member of [Suit]
    ([AttributeError]), or an exception of the hand total.  [Unfinished]
    stands for [OutOfFuel], which [Hand.get_value] never returns. *)
Inductive stop : Type :=
| AttributeError
| Raised (e : exn)
| Unfinished.

(** [Card.__str__]: [f"{self.rank}{self.suit.value}"] *)
Definition Card_str (self : Card.t) : stop + string :=
  match Card.suit self with
  | VSuit s => inr (pyval_str (Card.rank self) ++ Suit_value s)%string
  | _ => inl AttributeError
  end.

(** [str(card) for card in self.cards] *)
Fixpoint Card_strs (cs : list Card.t) : stop + list string :=
  match cs with
  | [] => inr []
  | c :: cs' =>
      match Card_str c with
      | inl e => inl e
      | inr s =>
          match Card_strs cs' with
          | inl e => inl e
          | inr l => inr (s :: l)
          end
      end
  end.

(** [Hand.__str__]: [", ".join(...)] *)
Definition Hand_str (self : Hand.t) : stop + string :=
  match Card_strs (Hand.cards self) with
  | inl e => inl e
  | inr l => inr (String.concat ", " l)
  end.

(** [str(hand.get_value())] *)
Definition value_text (h : Hand.t) : stop + string :=
  match Hand.get_value h with
  | Ok v => inr (int_str v)
  | Raise e => inl (Raised e)
  | OutOfFuel => inl Unfinished
  end.

Definition nl : string := String (ascii_of_nat 10) EmptyString.

(** ["=" * 50] *)
Definition rule : string :=
  "==================================================".

(** [display_state]: the text written, and what stopped the writing if
    anything did. *)
Definition display_state (show_dealer_hole : bool) (self : BlackjackGame.t)
  : string * option stop :=
  let out := (nl ++ rule ++ nl)%string in
  match Hand_str (BlackjackGame.dealer_hand self) with
  | inl e => (out, Some e)
  | inr dealer =>
      let out := (out ++ "DEALER'S HAND: " ++ dealer)%string in
      match (if show_dealer_hole
             then match value_text (BlackjackGame.dealer_hand self) with
                  | inr v => inr (" → Value: " ++ v ++ nl)%string
                  | inl e => inl e
                  end
             else inr (" (one card hidden)" ++ nl)%string) with
      | inl e => (out, Some e)
      | inr line =>
          let out := (out ++ line)%string in
          match Hand_str (BlackjackGame.player_hand self) with
          | inl e => (out, Some e)
          | inr player =>
              match value_text (BlackjackGame.player_hand self) with
              | inl e => (out, Some e)
              | inr v =>
                  ((out ++ "YOUR HAND:    " ++ player ++ " → Value: " ++ v ++ nl
                    ++ rule ++ nl
                    ++ "Balance: $" ++ int_str (BlackjackGame.player_balance self)
                    ++ " | Bet: $" ++ int_str (BlackjackGame.current_bet self)
                    ++ nl)%string,
                   None)
              end
          end
      end
  end.

(** ** The words of the specification, for comparison with the code *)

(** The sum of the point values of the cards, every Ace counted as 11. *)
Definition sum_points (cs : list Card.t) : result Z :=
  vs <- mapM Card.get_value cs ;; Ok (fold_right Z.add 0 vs).

Definition is_ace (c : Card.t) : bool := pyval_eqb (Card.rank c) (VStr "A").

Definition count_aces (cs : list Card.t) : Z :=
  Z.of_nat (List.length (filter is_ace cs)).

(** The soft total in closed form: as many Aces drop to 1 as it takes to
    reach 21 or less, and no more than there are. *)
Definition soft_total (total aces : Z) : Z :=
  total - 10 * Z.min aces (Z.max 0 ((total - 12) / 10)).

(** The all-Aces-as-1 total: what a hand can count at least. *)
Definition hard_total (total aces : Z) : Z := total - 10 * aces.

(** When a double down is legal: two cards in hand, no double yet this
    round, and a balance that covers the bet once more. *)
Definition can_double (doubled : bool) (s : BlackjackGame.t) : bool :=
  (List.length (Hand.cards (BlackjackGame.player_hand s)) =? 2)%nat
  && negb doubled
  && (BlackjackGame.current_bet s <=? BlackjackGame.player_balance s).

(** The 13 ranks and 4 suits a card of the shoe is built from. *)
Definition valid_rank (r : pyval) : bool :=
  pyval_in r (map VStr Deck.ranks).

Definition valid_suit (s : pyval) : bool :=
  pyval_in s (map VSuit all_suits).

Definition valid_card (c : Card.t) : bool :=
  valid_suit (Card.suit c) && valid_rank (Card.rank c).

Definition valid_cards (cs : list Card.t) : Prop :=
  Forall (fun c => valid_card c = true) cs.

(** A shoe of at least one deck holding valid cards. *)
Definition valid_shoe (d : Deck.t) : Prop :=
  1 <= Deck.num_decks d /\ valid_cards (Deck.cards d).

(** The 52 cards of one deck and the shoe of [n] decks, before the
    shuffle. *)
Definition fresh_deck : list Card.t :=
  map (fun sr => Card.mk (VSuit (fst sr)) (VStr (snd sr)))
      (list_prod all_suits Deck.ranks).

Definition fresh_shoe (n : Z) : list Card.t :=
  List.concat (repeat fresh_deck (Z.to_nat n)).

(** ** A shuffle to run the code with

    The generator state is the list of cards the next shuffle brings to
    the top of the shoe, first drawn first; the other cards keep their
    order.  When the cards asked for are not all in the list, the shuffle
    leaves the list as it is. *)

Definition Card_eqb (a b : Card.t) : bool :=
  pyval_eqb (Card.suit a) (Card.suit b) && pyval_eqb (Card.rank a) (Card.rank b).

Fixpoint take_out (c : Card.t) (l : list Card.t) : option (list Card.t) :=
  match l with
  | [] => None
  | x :: l' =>
      if Card_eqb x c then Some l'
      else option_map (cons x) (take_out c l')
  end.

Fixpoint take_all (top l : list Card.t) : option (list Card.t) :=
  match top with
  | [] => Some l
  | c :: top' =>
      match take_out c l with
      | Some l' => take_all top' l'
      | None => None
      end
  end.

Definition stacked : Type := list Card.t.

Definition stack_shuffle (top : stacked) (l : list Card.t) : list Card.t * stacked :=
  match take_all top l with
  | Some l' => (l' ++ rev top, top)
  | None => (l, top)
  end.

Definition card (s : Suit) (r : string) : Card.t := Card.mk (VSuit s) (VStr r).

(** A new game whose first shuffle brings [top] to the top of the shoe. *)
Definition new_game (top : stacked) : result (BlackjackGame.t * stacked) :=
  BlackjackGame.init stacked stack_shuffle top.

(** The shoe and the state a new game starts with under that shuffle. *)
Definition stacked_shoe (top : stacked) : Deck.t :=
  Deck.mk (fst (stack_shuffle top (fresh_shoe 6))) 6.

Definition opening (top : stacked) : BlackjackGame.t :=
  BlackjackGame.mk (stacked_shoe top) Hand.init Hand.init
                   1000 1000 0 0 0 0 0 0 0 0.

(** A new game, the first bet and the deal. *)
Definition dealt (top : stacked) (lines : list string)
  : result (BlackjackGame.t * stacked * list string) :=
  '(game, g) <- new_game top ;;
  '(game, rest) <- BlackjackGame.get_bet lines game ;;
  '(game, g) <- BlackjackGame.start_round stacked stack_shuffle game g ;;
  Ok (game, g, rest).

(** Player 5 and 6, dealer 9 and 8, a King next. *)
Definition eleven : stacked :=
  [card HEARTS "5"; card CLUBS "9"; card SPADES "6"; card DIAMONDS "8";
   card HEARTS "K"].

(** The table once 100 is bet on [eleven] and the cards are dealt. *)
Definition eleven_dealt : BlackjackGame.t :=
  BlackjackGame.mk
    (Deck.mk (firstn 308 (Deck.cards (stacked_shoe eleven))) 6)
    (Hand.mk [card HEARTS "5"; card SPADES "6"])
    (Hand.mk [card CLUBS "9"; card DIAMONDS "8"])
    900 1000 100 0 0 0 0 0 100 0.

(** Player Ace and King, dealer 9 and 8. *)
Definition natural : stacked :=
  [card HEARTS "A"; card CLUBS "9"; card SPADES "K"; card DIAMONDS "8"].

(** Player 10 and 8, dealer 10 and 9. *)
Definition eighteen_nineteen : stacked :=
  [card SPADES "10"; card HEARTS "10"; card CLUBS "8"; card DIAMONDS "9"].

(** Player 10 and 8, dealer 10 and 8. *)
Definition eighteen_each : stacked :=
  [card SPADES "10"; card HEARTS "10"; card CLUBS "8"; card DIAMONDS "8"].

(** Player 10 and 6, dealer 7 and 10, a King next. *)
Definition sixteen : stacked :=
  [card SPADES "10"; card HEARTS "7"; card CLUBS "6"; card DIAMONDS "10";
   card SPADES "K"].

(** Player 10 and 8, dealer Ace and King. *)
Definition dealer_natural : stacked :=
  [card SPADES "10"; card HEARTS "A"; card CLUBS "8"; card DIAMONDS "K"].

(** Player Ace and King, dealer Ace and Queen. *)
Definition two_naturals : stacked :=
  [card SPADES "A"; card HEARTS "A"; card CLUBS "K"; card DIAMONDS "Q"].

(** A table to settle: the player holds a natural, the dealer 21 in three
    cards, 100 is bet. *)
Definition natural_against_21 : BlackjackGame.t :=
  BlackjackGame.mk
    (Deck.mk fresh_deck 6)
    (Hand.mk [card HEARTS "A"; card SPADES "K"])
    (Hand.mk [card CLUBS "7"; card DIAMONDS "7"; card HEARTS "7"])
    900 1000 100 0 0 0 0 0 100 0.

(** A new game, then one pass through the loop of [play] on [lines]. *)
Definition first_round (top : stacked) (lines : list string)
  : result (BlackjackGame.flow * BlackjackGame.t * stacked * list string) :=
  '(game, g) <- new_game top ;;
  BlackjackGame.round stacked stack_shuffle 17 lines game g.

(** The counters of the ledger, in the order
    wins, losses, pushes, blackjacks, busts. *)
Definition counters (s : BlackjackGame.t) : list Z :=
  [BlackjackGame.wins s; BlackjackGame.losses s; BlackjackGame.pushes s;
   BlackjackGame.blackjacks s; BlackjackGame.busts s].

(** The ten numbers of the ledger. *)
Definition ledger (s : BlackjackGame.t) : list Z :=
  [BlackjackGame.player_balance s; BlackjackGame.starting_balance s;
   BlackjackGame.current_bet s; BlackjackGame.wins s; BlackjackGame.losses s;
   BlackjackGame.pushes s; BlackjackGame.blackjacks s; BlackjackGame.busts s;
   BlackjackGame.total_wagered s; BlackjackGame.total_won s].

(** The state of a finished pass, if it finished. *)
Definition after {A B C : Type} (r : result (A * BlackjackGame.t * B * C))
  : option BlackjackGame.t :=
  match r with
  | Ok (_, s, _, _) => Some s
  | _ => None
  end.

(** ** Notions used to state what the code does *)

(** How many times a card occurs in a list. *)
Definition copies (c : Card.t) (l : list Card.t) : nat :=
  List.length (filter (Card_eqb c) l).


(** The state the bet loop leaves when it accepts [bet]. *)
Definition with_bet (s : BlackjackGame.t) (bet : Z) : BlackjackGame.t :=
  BlackjackGame.mk
    (BlackjackGame.deck s) (BlackjackGame.player_hand s)
    (BlackjackGame.dealer_hand s)
    (BlackjackGame.player_balance s - bet)
    (BlackjackGame.starting_balance s) bet
    (BlackjackGame.wins s) (BlackjackGame.losses s)
    (BlackjackGame.pushes s) (BlackjackGame.blackjacks s)
    (BlackjackGame.busts s)
    (BlackjackGame.total_wagered s + bet) (BlackjackGame.total_won s).

(** Two cards that total 21. *)
Definition natural_21 (n : nat) (value : Z) : bool :=
  (n =? 2)%nat && (value =? 21).


(** * Properties *)

(** ** The result monad *)

Lemma bind_Ok {A B : Type} (m : result A) (k : A -> result B) (b : B) :
  bind m k = Ok b -> exists a, m = Ok a /\ k a = Ok b.
Proof.
  destruct m as [a | e |]; simpl; intros H; try discriminate.
  exists a; split; [reflexivity | exact H].
Qed.

(** ** Equality tests *)

Lemma Suit_eqb_eq (a b : Suit) : Suit_eqb a b = true <-> a = b.
Proof.
  split.
  - destruct a, b; simpl; intros H; (reflexivity || discriminate).
  - intros ->; destruct b; reflexivity.
Qed.

Lemma pyval_eqb_eq (a b : pyval) : pyval_eqb a b = true <-> a = b.
Proof.
  destruct a as [x | x | x], b as [y | y | y]; simpl;
    try (split; [discriminate | intros H; discriminate H]).
  - rewrite Suit_eqb_eq; split; [intros -> | intros [= ->]]; reflexivity.
  - rewrite String.eqb_eq; split; [intros -> | intros [= ->]]; reflexivity.
  - rewrite Z.eqb_eq; split; [intros -> | intros [= ->]]; reflexivity.
Qed.

Lemma Card_eqb_eq (a b : Card.t) : Card_eqb a b = true <-> a = b.
Proof.
  unfold Card_eqb; rewrite andb_true_iff, !pyval_eqb_eq.
  destruct a as [sa ra], b as [sb rb]; simpl; split.
  - intros [-> ->]; reflexivity.
  - intros [= -> ->]; split; reflexivity.
Qed.

(** ** The shuffle used to run the code is a shuffle *)

Lemma take_out_perm (c : Card.t) (l l' : list Card.t) :
  take_out c l = Some l' -> Permutation l (c :: l').
Proof.
  revert l'; induction l as [| x l IH]; simpl; intros l' H; [discriminate |].
  destruct (Card_eqb x c) eqn:E.
  - apply Card_eqb_eq in E; subst x. injection H as <-. reflexivity.
  - destruct (take_out c l) as [r |]; simpl in H; [| discriminate].
    injection H as <-.
    rewrite (IH r eq_refl). apply perm_swap.
Qed.

Lemma take_all_perm (top l l' : list Card.t) :
  take_all top l = Some l' -> Permutation l (l' ++ rev top).
Proof.
  revert l l'; induction top as [| c top IH]; simpl; intros l l' H.
  - injection H as <-. rewrite app_nil_r. reflexivity.
  - destruct (take_out c l) as [r |] eqn:E; [| discriminate].
    rewrite (take_out_perm _ _ _ E), (IH _ _ H), app_assoc.
    apply Permutation_cons_append.
Qed.

Lemma stack_shuffle_perm (top : stacked) (l : list Card.t) :
  Permutation (fst (stack_shuffle top l)) l.
Proof.
  unfold stack_shuffle.
  destruct (take_all top l) as [l' |] eqn:E; simpl.
  - symmetry; apply take_all_perm; exact E.
  - reflexivity.
Qed.

(** ** Card *)

(** The cards of the shoe have the point values of the rules. *)
Lemma valid_rank_value (s r : pyval) :
  valid_rank r = true ->
  exists v, Card.get_value (Card.mk s r) = Ok v /\ 2 <= v <= 11
            /\ (is_ace (Card.mk s r) = true <-> v = 11).
Proof.
  unfold valid_rank, pyval_in; rewrite existsb_exists.
  intros [x [Hin Heq]]. apply pyval_eqb_eq in Heq; subst x.
  unfold Deck.ranks in Hin; simpl in Hin.
  repeat (destruct Hin as [<- | Hin];
          [eexists; split; [vm_compute; reflexivity |];
           split; [lia | vm_compute; split; intros; (reflexivity || discriminate)] |]).
  destruct Hin.
Qed.

(** C10, as the code has it: [Card(suit, rank)] stores its two arguments and
    never fails, whatever they are; nothing is checked at construction, so a
    valid suit and rank never fail either. *)
Theorem Card_init_never_fails (suit rank : pyval) :
  exists c, Card.init suit rank = Ok c /\ Card.suit c = suit /\ Card.rank c = rank.
Proof.
  exists (Card.mk suit rank); repeat split.
Qed.

(** C10 fails as stated: a rank outside the 13 ranks and a suit outside the
    4 suits are accepted, no [InvalidCardSpec] is raised. *)
Lemma Card_init_accepts_invalid :
  valid_suit (VStr "stars") = false /\ valid_rank (VStr "1") = false /\
  Card.init (VStr "stars") (VStr "1") <> Raise InvalidCardSpec.
Proof.
  repeat split; discriminate.
Qed.

(** What is no rank shows only when the value is asked for. *)
Lemma get_value_invalid_rank :
  Card.get_value (Card.mk (VSuit HEARTS) (VStr "Z")) = Raise ValueError /\
  Card.get_value (Card.mk (VSuit HEARTS) (VSuit HEARTS)) = Raise TypeError /\
  Card.get_value (Card.mk (VSuit HEARTS) (VStr "1")) = Ok 1.
Proof. repeat split. Qed.

(** ** Hand *)

Lemma tally_sum (cs : list Card.t) (value : Z) (aces : nat) :
  Hand.tally cs value aces =
  (vs <- mapM Card.get_value cs ;;
   Ok (value + fold_right Z.add 0 vs,
       (aces + List.length (filter is_ace cs))%nat)).
Proof.
  revert value aces; induction cs as [| c cs IH]; intros value aces; simpl.
  - rewrite Z.add_0_r, Nat.add_0_r; reflexivity.
  - destruct (Card.get_value c) as [v | e |]; simpl; try reflexivity.
    rewrite IH.
    destruct (mapM Card.get_value cs) as [vs | e |]; simpl; try reflexivity.
    unfold is_ace at 2.
    destruct (pyval_eqb (Card.rank c) (VStr "A")); simpl;
      f_equal; f_equal; lia.
Qed.

Lemma get_value_sum (h : Hand.t) :
  Hand.get_value h =
  (total <- sum_points (Hand.cards h) ;;
   Ok (Hand.adjust (Z.to_nat (count_aces (Hand.cards h))) total)).
Proof.
  unfold Hand.get_value, sum_points, count_aces.
  rewrite tally_sum, Nat2Z.id.
  destruct (mapM Card.get_value (Hand.cards h)); reflexivity.
Qed.

(** The loop stops at the first total of 21 or less, or when the Aces are
    used up. *)
Lemma adjust_least (aces : nat) (value : Z) :
  exists k : Z,
    0 <= k <= Z.of_nat aces /\
    Hand.adjust aces value = value - 10 * k /\
    (k < Z.of_nat aces -> value - 10 * k <= 21) /\
    (0 < k -> 21 < value - 10 * (k - 1)).
Proof.
  revert value; induction aces as [| aces IH]; intros value.
  - exists 0; simpl; repeat split; lia.
  - cbn [Hand.adjust]. destruct (21 <? value) eqn:E.
    + apply Z.ltb_lt in E.
      destruct (IH (value - 10)) as [k [Hk [Hv [Hle Hgt]]]].
      exists (k + 1); rewrite Hv; repeat split; lia.
    + apply Z.ltb_ge in E. exists 0; repeat split; lia.
Qed.

(** The loop computes the closed form. *)
Lemma adjust_soft_total (aces : nat) (value : Z) :
  Hand.adjust aces value = soft_total value (Z.of_nat aces).
Proof.
  revert value; induction aces as [| aces IH]; intros value.
  - unfold soft_total, Hand.adjust. change (Z.of_nat 0) with 0.
    generalize ((value - 12) / 10); intros q; lia.
  - cbn [Hand.adjust]. destruct (21 <? value) eqn:E.
    + apply Z.ltb_lt in E. rewrite IH. unfold soft_total.
      assert (Hq : (value - 10 - 12) / 10 = (value - 12) / 10 - 1)
        by (Z.div_mod_to_equations; lia).
      assert (Hq1 : 1 <= (value - 12) / 10)
        by (Z.div_mod_to_equations; lia).
      rewrite Hq. revert Hq1. generalize ((value - 12) / 10); intros q Hq1. lia.
    + apply Z.ltb_ge in E. unfold soft_total.
      assert (Hq : (value - 12) / 10 <= 0)
        by (Z.div_mod_to_equations; lia).
      revert Hq. generalize ((value - 12) / 10); intros q Hq. lia.
Qed.

(** The total lies between the all-Aces-as-1 total and the
    all-Aces-as-11 total. *)
Lemma adjust_bounds (aces : nat) (value : Z) :
  hard_total value (Z.of_nat aces) <= Hand.adjust aces value <= value.
Proof.
  destruct (adjust_least aces value) as [k [Hk [-> _]]].
  unfold hard_total; lia.
Qed.

(** C5: the total is the sum of the point values with every Ace as 11, less
    10 for each of [k] Aces, where [k] is the least number of Aces (at most
    all of them) that brings the total to 21 or less; a hand whose sum
    cannot be formed raises as the sum does.  A+A+9 is 21 and A+A+A is
    13. *)
Theorem get_value_soft_aces :
  (forall (h : Hand.t) (total : Z),
      sum_points (Hand.cards h) = Ok total ->
      exists k : Z,
        0 <= k <= count_aces (Hand.cards h) /\
        Hand.get_value h = Ok (total - 10 * k) /\
        (k < count_aces (Hand.cards h) -> total - 10 * k <= 21) /\
        (0 < k -> 21 < total - 10 * (k - 1))) /\
  (forall (h : Hand.t) (e : exn),
      sum_points (Hand.cards h) = Raise e -> Hand.get_value h = Raise e) /\
  Hand.get_value (Hand.mk [card HEARTS "A"; card SPADES "A"; card CLUBS "9"]) = Ok 21 /\
  Hand.get_value (Hand.mk [card HEARTS "A"; card SPADES "A"; card CLUBS "A"]) = Ok 13.
Proof.
  split; [| split; [| split; reflexivity]].
  - intros h total Hsum. rewrite get_value_sum, Hsum; simpl.
    destruct (adjust_least (Z.to_nat (count_aces (Hand.cards h))) total)
      as [k [Hk [Hv [Hle Hgt]]]].
    unfold count_aces in *; rewrite Nat2Z.id in *.
    exists k; rewrite Hv; auto.
  - intros h e Hsum. rewrite get_value_sum, Hsum; reflexivity.
Qed.

Lemma get_value_soft_aces_witness :
  sum_points [card HEARTS "A"; card SPADES "A"; card CLUBS "K"] = Ok 32 /\
  exists k : Z,
    0 <= k <= 2 /\
    Hand.get_value (Hand.mk [card HEARTS "A"; card SPADES "A"; card CLUBS "K"])
    = Ok (32 - 10 * k) /\
    (k < 2 -> 32 - 10 * k <= 21) /\
    (0 < k -> 21 < 32 - 10 * (k - 1)).
Proof.
  split; [reflexivity |].
  exact (proj1 get_value_soft_aces
               (Hand.mk [card HEARTS "A"; card SPADES "A"; card CLUBS "K"]) 32
               eq_refl).
Defined.

(** X18: The total in closed form: with [total] the sum of the point values,
    every Ace as 11, and [aces] the number of Aces, the hand counts
    [total - 10 * min aces (max 0 ((total - 12) / 10))]. *)
Lemma get_value_closed_form (h : Hand.t) (total : Z) :
  sum_points (Hand.cards h) = Ok total ->
  Hand.get_value h = Ok (soft_total total (count_aces (Hand.cards h))).
Proof.
  intros Hsum. rewrite get_value_sum, Hsum; simpl.
  rewrite adjust_soft_total. unfold count_aces; rewrite Nat2Z.id. reflexivity.
Qed.

Lemma get_value_closed_form_witness :
  Hand.get_value
    (Hand.mk [card HEARTS "A"; card SPADES "A"; card CLUBS "K"; card CLUBS "5"])
  = Ok (soft_total 37 2).
Proof.
  exact (get_value_closed_form
           (Hand.mk [card HEARTS "A"; card SPADES "A"; card CLUBS "K"; card CLUBS "5"])
           37 eq_refl).
Defined.

(** C9: [is_blackjack] is true exactly for a hand of two cards that totals
    21; a hand of three or more cards is no blackjack, whatever its total,
    and 7+7+7, which totals 21, is none. *)
Theorem is_blackjack_iff_two_cards_21 :
  (forall h : Hand.t,
      Hand.is_blackjack h = Ok true <->
      List.length (Hand.cards h) = 2%nat /\ Hand.get_value h = Ok 21) /\
  (forall h : Hand.t,
      (3 <= List.length (Hand.cards h))%nat -> Hand.is_blackjack h = Ok false) /\
  Hand.get_value (Hand.mk [card HEARTS "7"; card SPADES "7"; card CLUBS "7"]) = Ok 21 /\
  Hand.is_blackjack (Hand.mk [card HEARTS "7"; card SPADES "7"; card CLUBS "7"]) = Ok false.
Proof.
  split; [| split; [| split; reflexivity]].
  - intros h; unfold Hand.is_blackjack.
    destruct (List.length (Hand.cards h) =? 2)%nat eqn:E.
    + apply Nat.eqb_eq in E. split.
      * intros H. split; [exact E |].
        destruct (Hand.get_value h) as [v | e |]; simpl in H; try discriminate.
        injection H as H. apply Z.eqb_eq in H; subst v; reflexivity.
      * intros [_ ->]; reflexivity.
    + apply Nat.eqb_neq in E. split; [discriminate | intros [H _]; contradiction].
  - intros h Hlen; unfold Hand.is_blackjack.
    destruct (List.length (Hand.cards h) =? 2)%nat eqn:E; [| reflexivity].
    apply Nat.eqb_eq in E; lia.
Qed.

Lemma is_blackjack_iff_two_cards_21_witness :
  Hand.is_blackjack (Hand.mk [card HEARTS "A"; card SPADES "K"]) = Ok true /\
  Hand.is_blackjack
    (Hand.mk [card HEARTS "5"; card SPADES "6"; card CLUBS "K"]) = Ok false.
Proof.
  split.
  - apply (proj1 is_blackjack_iff_two_cards_21). split; reflexivity.
  - apply (proj1 (proj2 is_blackjack_iff_two_cards_21)). simpl; lia.
Defined.


(** ** Deck *)

Lemma one_deck_fresh : Deck.one_deck = Ok fresh_deck.
Proof. reflexivity. Qed.

Lemma fresh_deck_length : List.length fresh_deck = 52%nat.
Proof. reflexivity. Qed.

Lemma build_fresh (n : nat) (acc : list Card.t) :
  Deck.build n acc = Ok (acc ++ List.concat (repeat fresh_deck n)).
Proof.
  revert acc; induction n as [| n IH]; intros acc; simpl.
  - rewrite app_nil_r; reflexivity.
  - rewrite IH, <- app_assoc; reflexivity.
Qed.

Lemma fresh_shoe_length (n : Z) :
  List.length (fresh_shoe n) = (52 * Z.to_nat n)%nat.
Proof.
  unfold fresh_shoe. induction (Z.to_nat n) as [| k IH]; cbn [repeat List.concat].
  - reflexivity.
  - rewrite length_app, IH, fresh_deck_length. lia.
Qed.

Lemma fresh_shoe_valid (n : Z) :
  Forall (fun c => valid_card c = true) (fresh_shoe n).
Proof.
  unfold fresh_shoe. induction (Z.to_nat n) as [| k IH]; cbn [repeat List.concat].
  - constructor.
  - apply Forall_app; split; [| exact IH].
    unfold fresh_deck; simpl. repeat constructor.
Qed.

Lemma pop_last (l : list Card.t) (c : Card.t) :
  Deck.pop (l ++ [c]) = Ok (c, l).
Proof.
  unfold Deck.pop. rewrite rev_app_distr; simpl. rewrite rev_involutive; reflexivity.
Qed.

Lemma pop_nonempty (l : list Card.t) :
  l <> [] -> exists c r, l = r ++ [c] /\ Deck.pop l = Ok (c, r).
Proof.
  intros Hne. destruct (exists_last Hne) as [r [c ->]].
  exists c, r; split; [reflexivity | apply pop_last].
Qed.

Lemma pop_empty : Deck.pop [] = Raise IndexError.
Proof. reflexivity. Qed.

Section WithShuffle.

Variable rng : Type.
Variable shuffle : rng -> list Card.t -> list Card.t * rng.

(** What [random.shuffle] is relied on for: the list it leaves holds the
    same cards. *)
Hypothesis shuffle_perm :
  forall (g : rng) (l : list Card.t), Permutation (fst (shuffle g l)) l.

Lemma reset_full_shoe (self : Deck.t) (g : rng) :
  exists cs g',
    Deck.reset rng shuffle self g = Ok (Deck.mk cs (Deck.num_decks self), g') /\
    Permutation cs (fresh_shoe (Deck.num_decks self)).
Proof.
  unfold Deck.reset. rewrite build_fresh; simpl.
  pose proof (shuffle_perm g (fresh_shoe (Deck.num_decks self))) as Hp.
  unfold fresh_shoe in *.
  destruct (shuffle g (List.concat (repeat fresh_deck (Z.to_nat (Deck.num_decks self)))))
    as [cs g'].
  exists cs, g'; split; [reflexivity | exact Hp].
Qed.

(** With ten cards or more in the shoe, [draw] pops its last card and
    leaves the generator alone. *)
Lemma draw_plenty (self : Deck.t) (g : rng) :
  (10 <= List.length (Deck.cards self))%nat ->
  exists c r,
    Deck.cards self = r ++ [c] /\
    Deck.draw rng shuffle self g = Ok (c, Deck.mk r (Deck.num_decks self), g).
Proof.
  intros Hlen. unfold Deck.draw.
  apply Nat.ltb_ge in Hlen as Hlen'. rewrite Hlen'. cbn [bind].
  assert (Hne : Deck.cards self <> [])
    by (intros H; rewrite H in Hlen; simpl in Hlen; lia).
  destruct (pop_nonempty _ Hne) as [c [r [Hc Hpop]]].
  rewrite Hpop; cbn [bind]. exists c, r; split; [exact Hc | reflexivity].
Qed.

(** With fewer than ten cards in a shoe of at least one deck, [draw]
    pops the last card of a shuffle of the full shoe. *)
Lemma draw_few (self : Deck.t) (g : rng) :
  (List.length (Deck.cards self) < 10)%nat ->
  1 <= Deck.num_decks self ->
  exists c r g',
    Permutation (r ++ [c]) (fresh_shoe (Deck.num_decks self)) /\
    Deck.draw rng shuffle self g = Ok (c, Deck.mk r (Deck.num_decks self), g').
Proof.
  intros Hlen Hn. unfold Deck.draw.
  apply Nat.ltb_lt in Hlen as Hlen'. rewrite Hlen'.
  destruct (reset_full_shoe self g) as [cs [g' [Hr Hp]]].
  rewrite Hr; cbn [bind Deck.cards Deck.num_decks].
  assert (Hcs : List.length cs = (52 * Z.to_nat (Deck.num_decks self))%nat)
    by (rewrite (Permutation_length Hp); apply fresh_shoe_length).
  assert (Hne : cs <> []) by (intros ->; simpl in Hcs; lia).
  destruct (pop_nonempty cs Hne) as [c [r [-> Hpop]]].
  rewrite Hpop; cbn [bind]. exists c, r, g'; split; [exact Hp | reflexivity].
Qed.


End WithShuffle.


(** A shoe of no decks is outside the theorem: with fewer than ten cards
    left the rebuilt shoe is empty and the pop raises. *)
Lemma draw_zero_decks :
  Deck.draw stacked stack_shuffle (Deck.mk [] 0) [] = Raise IndexError.
Proof. reflexivity. Qed.

(** ** Numbers *)

Lemma bit_length_le (m k : Z) :
  0 <= k -> 0 <= m < 2 ^ k -> bit_length m <= k.
Proof.
  intros Hk Hm. unfold bit_length.
  rewrite Z.abs_eq by lia.
  destruct (m =? 0) eqn:E; [lia |].
  apply Z.eqb_neq in E.
  assert (Z.log2 m < k) by (apply Z.log2_lt_pow2; lia).
  lia.
Qed.

Lemma int_times_int (bet k : Z) : int_times bet (NInt k) = Ok (bet * k).
Proof. reflexivity. Qed.

(** [int(bet * 2.5)] is [2.5 * bet] rounded down, as long as the product
    is formed exactly. *)
Lemma int_times_two_and_a_half (bet : Z) :
  0 <= bet -> 5 * bet < 2 ^ 53 ->
  int_times bet (NFloat two_and_a_half) = Ok (5 * bet / 2).
Proof.
  intros H0 H53.
  assert (Hb : bit_length bet <= 53) by (apply bit_length_le; lia).
  assert (Hb5 : bit_length (bet * 5) <= 53) by (apply bit_length_le; lia).
  unfold int_times, int_mul, float_of_int, round53.
  apply Z.leb_le in Hb as Hb'. rewrite Hb'.
  unfold to_float; cbn [mant expo].
  replace (1024 <? bit_length bet + 0) with false by (symmetry; apply Z.ltb_ge; lia).
  cbn [bind]. unfold float_mul, round53, two_and_a_half; cbn [mant expo].
  apply Z.leb_le in Hb5 as Hb5'. rewrite Hb5'.
  unfold to_float; cbn [mant expo].
  replace (1024 <? bit_length (bet * 5) + (0 + -1)) with false
    by (symmetry; apply Z.ltb_ge; lia).
  cbn [bind int_of_num expo mant].
  change (0 <=? 0 + -1) with false. cbv iota.
  change (2 ^ (- (0 + -1))) with 2.
  rewrite Z.quot_div_nonneg by lia.
  f_equal. f_equal. lia.
Qed.

(** Past that bound the product is rounded: [2 ^ 53 + 1] becomes
    [2 ^ 53] on its way to a float. *)
Lemma int_times_rounds_large_bet :
  int_times (2 ^ 53 + 1) (NFloat two_and_a_half) = Ok (5 * 2 ^ 52) /\
  5 * (2 ^ 53 + 1) / 2 = 5 * 2 ^ 52 + 2.
Proof. split; reflexivity. Qed.

(** ** The winner *)

(** C4: whenever the player's total exceeds 21 the player loses, with
    multiplier -1 and the bust and the loss counted, whatever the dealer's
    total is: the player's bust is the first rule. *)
Theorem determine_winner_player_bust_first
        (self : BlackjackGame.t) (player_value dealer_value : Z) :
  Hand.get_value (BlackjackGame.player_hand self) = Ok player_value ->
  Hand.get_value (BlackjackGame.dealer_hand self) = Ok dealer_value ->
  21 < player_value ->
  BlackjackGame.determine_winner self =
  Ok (NInt (-1), "Player busted! Dealer wins.",
      BlackjackGame.set_losses
        (BlackjackGame.set_busts self (BlackjackGame.busts self + 1))
        (BlackjackGame.losses self + 1)).
Proof.
  intros Hp Hd Hbust. unfold BlackjackGame.determine_winner.
  rewrite Hp, Hd; cbn [bind].
  apply Z.ltb_lt in Hbust; rewrite Hbust. reflexivity.
Qed.

Lemma determine_winner_player_bust_first_witness :
  let self :=
    BlackjackGame.mk (Deck.mk fresh_deck 6)
      (Hand.mk [card SPADES "K"; card HEARTS "Q"; card CLUBS "2"])
      (Hand.mk [card DIAMONDS "K"; card HEARTS "6"; card CLUBS "K"])
      900 1000 100 0 0 0 0 0 100 0 in
  Hand.get_value (BlackjackGame.player_hand self) = Ok 22 /\
  Hand.get_value (BlackjackGame.dealer_hand self) = Ok 26 /\
  21 < 22 /\
  BlackjackGame.determine_winner self =
  Ok (NInt (-1), "Player busted! Dealer wins.",
      BlackjackGame.set_losses
        (BlackjackGame.set_busts self (BlackjackGame.busts self + 1))
        (BlackjackGame.losses self + 1)).
Proof.
  intros self. split; [reflexivity |]. split; [reflexivity |]. split; [lia |].
  apply (determine_winner_player_bust_first self 22 26);
    [reflexivity | reflexivity | lia].
Defined.

(** The other rules, each under the ones before it.  A dealer over 21
    pays 2 to a player who is not. *)
Lemma determine_winner_dealer_bust
      (self : BlackjackGame.t) (player_value dealer_value : Z) :
  Hand.get_value (BlackjackGame.player_hand self) = Ok player_value ->
  Hand.get_value (BlackjackGame.dealer_hand self) = Ok dealer_value ->
  player_value <= 21 -> 21 < dealer_value ->
  BlackjackGame.determine_winner self =
  Ok (NInt 2, "Dealer busted! Player wins!",
      BlackjackGame.set_wins self (BlackjackGame.wins self + 1)).
Proof.
  intros Hp Hd Hle Hbust. unfold BlackjackGame.determine_winner.
  rewrite Hp, Hd; cbn [bind].
  apply Z.ltb_ge in Hle; rewrite Hle.
  apply Z.ltb_lt in Hbust; rewrite Hbust. reflexivity.
Qed.

(** The multiplier is one of -1, 1, 2 and 2.5, and exactly one of wins,
    losses and pushes goes up by one. *)
Lemma determine_winner_counts
      (self self' : BlackjackGame.t) (m : pynum) (msg : string) :
  BlackjackGame.determine_winner self = Ok (m, msg, self') ->
  (m = NInt (-1) \/ m = NInt 1 \/ m = NInt 2 \/ m = NFloat two_and_a_half) /\
  (BlackjackGame.wins self' - BlackjackGame.wins self)
  + (BlackjackGame.losses self' - BlackjackGame.losses self)
  + (BlackjackGame.pushes self' - BlackjackGame.pushes self) = 1 /\
  0 <= BlackjackGame.wins self' - BlackjackGame.wins self /\
  0 <= BlackjackGame.losses self' - BlackjackGame.losses self /\
  0 <= BlackjackGame.pushes self' - BlackjackGame.pushes self.
Proof.
  unfold BlackjackGame.determine_winner, BlackjackGame.py_and, BlackjackGame.py_not.
  destruct (Hand.get_value (BlackjackGame.player_hand self)) as [pv | |];
    cbn [bind]; try discriminate.
  destruct (Hand.get_value (BlackjackGame.dealer_hand self)) as [dv | |];
    cbn [bind]; try discriminate.
  destruct (Hand.is_blackjack (BlackjackGame.player_hand self)) as [[|] | |];
    destruct (Hand.is_blackjack (BlackjackGame.dealer_hand self)) as [[|] | |];
    destruct (21 <? pv); destruct (21 <? dv);
    destruct (dv <? pv); destruct (pv <? dv);
    cbn; intros H; try discriminate; injection H as <- <- <-; cbn;
    (split; [tauto | lia]).
Qed.

(** ** The bet *)

(** An accepted bet lies in [1 .. balance]; it is taken from the balance
    and added to the total wagered. *)
Lemma get_bet_accepts (lines rest : list string) (self self' : BlackjackGame.t) :
  BlackjackGame.get_bet lines self = Ok (self', rest) ->
  exists bet : Z,
    0 < bet <= BlackjackGame.player_balance self /\
    self' =
    BlackjackGame.mk
      (BlackjackGame.deck self) (BlackjackGame.player_hand self)
      (BlackjackGame.dealer_hand self)
      (BlackjackGame.player_balance self - bet)
      (BlackjackGame.starting_balance self) bet
      (BlackjackGame.wins self) (BlackjackGame.losses self)
      (BlackjackGame.pushes self) (BlackjackGame.blackjacks self)
      (BlackjackGame.busts self)
      (BlackjackGame.total_wagered self + bet) (BlackjackGame.total_won self).
Proof.
  revert rest self'; induction lines as [| line lines IH]; intros rest self' H.
  - discriminate.
  - cbn [BlackjackGame.get_bet] in H.
    destruct (int_of_str line) as [bet | e |].
    + destruct ((bet <=? 0) || (BlackjackGame.player_balance self <? bet)) eqn:E.
      * exact (IH _ _ H).
      * apply orb_false_iff in E as [E1 E2].
        apply Z.leb_gt in E1. apply Z.ltb_ge in E2.
        injection H as <- <-. exists bet; split; [lia | reflexivity].
    + destruct e; try discriminate. exact (IH _ _ H).
    + discriminate.
Qed.

Section WithRandom.

Variable rng : Type.
Variable shuffle : rng -> list Card.t -> list Card.t * rng.

(** ** Dealing *)

Lemma deal_player_inv (self self' : BlackjackGame.t) (g g' : rng) :
  BlackjackGame.deal_player rng shuffle self g = Ok (self', g') ->
  exists c d,
    Deck.draw rng shuffle (BlackjackGame.deck self) g = Ok (c, d, g') /\
    self' = BlackjackGame.set_player_hand (BlackjackGame.set_deck self d)
              (Hand.add_card (BlackjackGame.player_hand self) c).
Proof.
  unfold BlackjackGame.deal_player.
  destruct (Deck.draw rng shuffle (BlackjackGame.deck self) g) as [[[c d] g1] | |];
    cbn [bind]; intros H; try discriminate.
  injection H as <- <-. exists c, d; split; reflexivity.
Qed.

Lemma deal_dealer_inv (self self' : BlackjackGame.t) (g g' : rng) :
  BlackjackGame.deal_dealer rng shuffle self g = Ok (self', g') ->
  exists c d,
    Deck.draw rng shuffle (BlackjackGame.deck self) g = Ok (c, d, g') /\
    self' = BlackjackGame.set_dealer_hand (BlackjackGame.set_deck self d)
              (Hand.add_card (BlackjackGame.dealer_hand self) c).
Proof.
  unfold BlackjackGame.deal_dealer.
  destruct (Deck.draw rng shuffle (BlackjackGame.deck self) g) as [[[c d] g1] | |];
    cbn [bind]; intros H; try discriminate.
  injection H as <- <-. exists c, d; split; reflexivity.
Qed.

(** Dealing touches the shoe and the hands, never the ledger. *)
Lemma start_round_ledger (self self' : BlackjackGame.t) (g g' : rng) :
  BlackjackGame.start_round rng shuffle self g = Ok (self', g') ->
  ledger self' = ledger self.
Proof.
  unfold BlackjackGame.start_round. intros H.
  apply bind_Ok in H as [[s1 g1] [H1 H]].
  apply bind_Ok in H as [[s2 g2] [H2 H]].
  apply bind_Ok in H as [[s3 g3] [H3 H]].
  apply deal_player_inv in H1 as [c1 [d1 [_ ->]]].
  apply deal_dealer_inv in H2 as [c2 [d2 [_ ->]]].
  apply deal_player_inv in H3 as [c3 [d3 [_ ->]]].
  apply deal_dealer_inv in H as [c4 [d4 [_ ->]]].
  reflexivity.
Qed.

(** ** Double down *)

(** C7: a double down, asked for with [d].  When it is legal (two cards in
    hand, no double yet this round, the balance covers the bet once more),
    the bet is taken from the balance once more, [current_bet] doubles,
    [total_wagered] grows by the original bet, one card is drawn into the
    player's hand, and the turn is over, bust or not: no further line is
    read.  When it is not legal, nothing changes and the player is asked
    again. *)
Theorem double_down
        (line : string) (rest : list string) (doubled : bool)
        (self : BlackjackGame.t) (g : rng) :
  lower line = "d" ->
  (can_double doubled self = true ->
   forall (c : Card.t) (d' : Deck.t) (g' : rng) (v : Z),
     Deck.draw rng shuffle (BlackjackGame.deck self) g = Ok (c, d', g') ->
     Hand.get_value (Hand.add_card (BlackjackGame.player_hand self) c) = Ok v ->
     BlackjackGame.player_turn rng shuffle (line :: rest) doubled self g =
     Ok (negb (v <=? 21),
         BlackjackGame.mk
           d' (Hand.add_card (BlackjackGame.player_hand self) c)
           (BlackjackGame.dealer_hand self)
           (BlackjackGame.player_balance self - BlackjackGame.current_bet self)
           (BlackjackGame.starting_balance self)
           (2 * BlackjackGame.current_bet self)
           (BlackjackGame.wins self) (BlackjackGame.losses self)
           (BlackjackGame.pushes self) (BlackjackGame.blackjacks self)
           (BlackjackGame.busts self)
           (BlackjackGame.total_wagered self + BlackjackGame.current_bet self)
           (BlackjackGame.total_won self),
         g', rest)) /\
  (can_double doubled self = false ->
   BlackjackGame.player_turn rng shuffle (line :: rest) doubled self g =
   BlackjackGame.player_turn rng shuffle rest doubled self g).
Proof.
  intros Hd. unfold can_double. split.
  - intros Hlegal c d' g' v Hdraw Hv.
    apply andb_true_iff in Hlegal as [Hlegal Hbal].
    apply Z.leb_le in Hbal.
    cbn [BlackjackGame.player_turn]. rewrite Hd.
    change (String.eqb "d" "h") with false.
    change (String.eqb "d" "s") with false.
    change (String.eqb "d" "d") with true.
    cbv iota. cbn [andb]. rewrite Hlegal.
    replace (BlackjackGame.player_balance self <? BlackjackGame.current_bet self)
      with false by (symmetry; apply Z.ltb_ge; lia).
    unfold BlackjackGame.player_hit, BlackjackGame.deal_player.
    unfold BlackjackGame.set_deck, BlackjackGame.set_player_hand,
      BlackjackGame.set_player_balance, BlackjackGame.set_current_bet,
      BlackjackGame.set_total_wagered.
    cbn [BlackjackGame.deck BlackjackGame.player_hand BlackjackGame.dealer_hand
         BlackjackGame.player_balance BlackjackGame.starting_balance
         BlackjackGame.current_bet BlackjackGame.wins BlackjackGame.losses
         BlackjackGame.pushes BlackjackGame.blackjacks BlackjackGame.busts
         BlackjackGame.total_wagered BlackjackGame.total_won].
    rewrite Hdraw.
    cbn [bind BlackjackGame.deck BlackjackGame.player_hand BlackjackGame.dealer_hand
         BlackjackGame.player_balance BlackjackGame.starting_balance
         BlackjackGame.current_bet BlackjackGame.wins BlackjackGame.losses
         BlackjackGame.pushes BlackjackGame.blackjacks BlackjackGame.busts
         BlackjackGame.total_wagered BlackjackGame.total_won].
    rewrite Hv. cbn [bind].
    rewrite Z.div_mul by lia.
    rewrite (Z.mul_comm (BlackjackGame.current_bet self) 2).
    reflexivity.
  - intros Hillegal.
    cbn [BlackjackGame.player_turn]. rewrite Hd.
    change (String.eqb "d" "h") with false.
    change (String.eqb "d" "s") with false.
    change (String.eqb "d" "d") with true.
    cbv iota. cbn [andb].
    destruct ((List.length (Hand.cards (BlackjackGame.player_hand self)) =? 2)%nat
              && negb doubled) eqn:E; [| reflexivity].
    cbn [andb] in Hillegal. apply Z.leb_gt in Hillegal.
    apply Z.ltb_lt in Hillegal. rewrite Hillegal. reflexivity.
Qed.

(** ** A natural blackjack *)

(** C8, as the code has it: the bet is accepted and the cards are dealt; the
    player holds a natural blackjack and the dealer does not.  Then the
    pass is over at once: the lines after the bet are unread, the shoe and
    both hands are as dealt, a win and a blackjack are counted, and
    [int(2.5 * bet)], which is [2.5 * bet] rounded down to a whole number
    for a bet below [2 ^ 53 / 5], is added to the balance and to
    [total_won]; for an even bet that is [2.5 * bet] exactly. *)
Theorem natural_blackjack_pays
        (fuel : nat) (lines rest : list string)
        (self self1 self2 : BlackjackGame.t) (g g2 : rng) :
  BlackjackGame.get_bet lines self = Ok (self1, rest) ->
  BlackjackGame.start_round rng shuffle self1 g = Ok (self2, g2) ->
  Hand.is_blackjack (BlackjackGame.dealer_hand self2) = Ok false ->
  Hand.is_blackjack (BlackjackGame.player_hand self2) = Ok true ->
  5 * BlackjackGame.current_bet self2 < 2 ^ 53 ->
  let bet := BlackjackGame.current_bet self2 in
  let payout := 5 * bet / 2 in
  BlackjackGame.round rng shuffle fuel lines self g =
  Ok (BlackjackGame.Continue,
      BlackjackGame.mk
        (BlackjackGame.deck self2) (BlackjackGame.player_hand self2)
        (BlackjackGame.dealer_hand self2)
        (BlackjackGame.player_balance self2 + payout)
        (BlackjackGame.starting_balance self2) bet
        (BlackjackGame.wins self2 + 1) (BlackjackGame.losses self2)
        (BlackjackGame.pushes self2) (BlackjackGame.blackjacks self2 + 1)
        (BlackjackGame.busts self2)
        (BlackjackGame.total_wagered self2)
        (BlackjackGame.total_won self2 + payout),
      g2, rest) /\
  0 < bet /\
  2 * payout <= 5 * bet < 2 * payout + 2 /\
  (Z.even bet = true -> 2 * payout = 5 * bet).
Proof.
  intros Hbet Hdeal Hdealer Hplayer Hsmall bet payout.
  assert (Hpos : 0 < bet).
  { apply get_bet_accepts in Hbet as [b [Hb ->]].
    apply start_round_ledger in Hdeal.
    unfold ledger in Hdeal; cbn in Hdeal.
    injection Hdeal as _ _ Hc _. unfold bet. lia. }
  split; [| split; [exact Hpos | split]].
  - unfold BlackjackGame.round.
    rewrite Hbet; cbn [bind]. rewrite Hdeal; cbn [bind].
    rewrite Hdealer; cbn [bind]. rewrite Hplayer; cbn [bind].
    rewrite int_times_two_and_a_half by (fold bet; lia).
    reflexivity.
  - unfold payout. pose proof (Z.div_mod (5 * bet) 2 ltac:(lia)) as Hdm.
    pose proof (Z.mod_pos_bound (5 * bet) 2 ltac:(lia)). lia.
  - intros Heven. apply Z.even_spec in Heven as [k Hk].
    unfold payout. rewrite Hk.
    replace (5 * (2 * k)) with (5 * k * 2) by lia.
    rewrite Z.div_mul by lia. lia.
Qed.

End WithRandom.

(** ** Running the code *)

Lemma new_game_opening (top : stacked) : new_game top = Ok (opening top, top).
Proof.
  unfold new_game, BlackjackGame.init, Deck.init, Deck.reset.
  rewrite build_fresh. cbn [bind app Deck.num_decks].
  unfold opening, stacked_shoe, fresh_shoe.
  destruct (stack_shuffle top (List.concat (repeat fresh_deck (Z.to_nat 6))))
    as [cs g]  eqn:E.
  assert (g = top) as ->.
  { unfold stack_shuffle in E.
    destruct (take_all top _); injection E as _ <-; reflexivity. }
  reflexivity.
Qed.

Lemma eleven_dealt_reached : dealt eleven ["100"] = Ok (eleven_dealt, eleven, []).
Proof. vm_compute. reflexivity. Qed.

Lemma double_down_witness :
  lower "D" = "d" /\
  can_double false eleven_dealt = true /\
  BlackjackGame.player_turn stacked stack_shuffle ["D"; "n"] false eleven_dealt eleven =
  Ok (false,
      BlackjackGame.mk
        (Deck.mk (firstn 307 (Deck.cards (stacked_shoe eleven))) 6)
        (Hand.mk [card HEARTS "5"; card SPADES "6"; card HEARTS "K"])
        (Hand.mk [card CLUBS "9"; card DIAMONDS "8"])
        800 1000 200 0 0 0 0 0 200 0,
      eleven, ["n"]).
Proof.
  split; [reflexivity |]. split; [reflexivity |].
  exact (proj1 (double_down stacked stack_shuffle "D" ["n"] false
                            eleven_dealt eleven eq_refl)
               eq_refl
               (card HEARTS "K")
               (Deck.mk (firstn 307 (Deck.cards (stacked_shoe eleven))) 6)
               eleven 21 eq_refl eq_refl).
Defined.

Lemma natural_blackjack_pays_witness :
  BlackjackGame.round stacked stack_shuffle 17 ["100"; "s"] (opening natural) natural =
  Ok (BlackjackGame.Continue,
      BlackjackGame.mk
        (Deck.mk (firstn 308 (Deck.cards (stacked_shoe natural))) 6)
        (Hand.mk [card HEARTS "A"; card SPADES "K"])
        (Hand.mk [card CLUBS "9"; card DIAMONDS "8"])
        1150 1000 100 1 0 0 1 0 100 250,
      natural, ["s"]).
Proof.
  exact (proj1 (natural_blackjack_pays stacked stack_shuffle 17
                  ["100"; "s"] ["s"] (opening natural)
                  (BlackjackGame.mk (stacked_shoe natural) Hand.init Hand.init
                                    900 1000 100 0 0 0 0 0 100 0)
                  (BlackjackGame.mk
                     (Deck.mk (firstn 308 (Deck.cards (stacked_shoe natural))) 6)
                     (Hand.mk [card HEARTS "A"; card SPADES "K"])
                     (Hand.mk [card CLUBS "9"; card DIAMONDS "8"])
                     900 1000 100 0 0 0 0 0 100 0)
                  natural natural
                  eq_refl eq_refl eq_refl eq_refl eq_refl)).
Defined.

(** C8 fails as stated: on a bet of 5 a natural blackjack adds 12 to the
    balance, which is not 2.5 times 5. *)
Lemma natural_blackjack_odd_bet :
  exists s : BlackjackGame.t,
    after (first_round natural ["5"]) = Some s /\
    Hand.is_blackjack (BlackjackGame.player_hand s) = Ok true /\
    Hand.is_blackjack (BlackjackGame.dealer_hand s) = Ok false /\
    BlackjackGame.current_bet s = 5 /\
    BlackjackGame.player_balance s = (1000 - 5) + 12 /\
    2 * 12 <> 5 * BlackjackGame.current_bet s.
Proof.
  eexists. split; [vm_compute; reflexivity |]. repeat split. discriminate.
Qed.

(** ** Settling a round *)

Section Settling.

Variable rng : Type.
Variable shuffle : rng -> list Card.t -> list Card.t * rng.

(** With a whole multiplier [k] the balance moves by [k] times the bet,
    and so does [total_won] when [k] is positive. *)
Lemma settle_whole_multiplier
      (fuel : nat) (self s1 s2 : BlackjackGame.t) (g g1 : rng)
      (k : Z) (msg : string) :
  BlackjackGame.dealer_play rng shuffle fuel self g = Ok (s1, g1) ->
  BlackjackGame.determine_winner s1 = Ok (NInt k, msg, s2) ->
  exists s3,
    BlackjackGame.settle rng shuffle fuel self g = Ok (s3, g1) /\
    BlackjackGame.player_balance s3 =
    BlackjackGame.player_balance s2 + BlackjackGame.current_bet s2 * k /\
    BlackjackGame.total_won s3 =
    BlackjackGame.total_won s2
    + (if 0 <? k then BlackjackGame.current_bet s2 * k else 0) /\
    counters s3 = counters s2.
Proof.
  intros Hplay Hwin. unfold BlackjackGame.settle.
  rewrite Hplay; cbn [bind]. rewrite Hwin; cbn [bind].
  rewrite int_times_int; cbn [bind num_pos].
  eexists; split; [reflexivity |].
  destruct (0 <? k); cbn; repeat split; lia.
Qed.

(** A loss found by [determine_winner] takes the bet from the balance a
    second time. *)
Lemma settle_loss
      (fuel : nat) (self s1 s2 : BlackjackGame.t) (g g1 : rng) (msg : string) :
  BlackjackGame.dealer_play rng shuffle fuel self g = Ok (s1, g1) ->
  BlackjackGame.determine_winner s1 = Ok (NInt (-1), msg, s2) ->
  exists s3,
    BlackjackGame.settle rng shuffle fuel self g = Ok (s3, g1) /\
    BlackjackGame.player_balance s3 =
    BlackjackGame.player_balance s2 - BlackjackGame.current_bet s2.
Proof.
  intros Hplay Hwin.
  destruct (settle_whole_multiplier fuel self s1 s2 g g1 (-1) msg Hplay Hwin)
    as [s3 [Hs [Hb _]]].
  exists s3; split; [exact Hs | lia].
Qed.

(** A push found by [determine_winner] adds the returned bet to
    [total_won]. *)
Lemma settle_push
      (fuel : nat) (self s1 s2 : BlackjackGame.t) (g g1 : rng) (msg : string) :
  BlackjackGame.dealer_play rng shuffle fuel self g = Ok (s1, g1) ->
  BlackjackGame.determine_winner s1 = Ok (NInt 1, msg, s2) ->
  exists s3,
    BlackjackGame.settle rng shuffle fuel self g = Ok (s3, g1) /\
    BlackjackGame.total_won s3 =
    BlackjackGame.total_won s2 + BlackjackGame.current_bet s2.
Proof.
  intros Hplay Hwin.
  destruct (settle_whole_multiplier fuel self s1 s2 g g1 1 msg Hplay Hwin)
    as [s3 [Hs [_ [Hw _]]]].
  exists s3; split; [exact Hs |].
  change (0 <? 1) with true in Hw; cbv iota in Hw. lia.
Qed.

(** ** The player's turn counts nothing *)

Lemma player_hit_counters (self self' : BlackjackGame.t) (g g' : rng) (ok : bool) :
  BlackjackGame.player_hit rng shuffle self g = Ok (ok, self', g') ->
  ledger self' = ledger self.
Proof.
  unfold BlackjackGame.player_hit. intros H.
  apply bind_Ok in H as [[s1 g1] [H1 H]].
  apply bind_Ok in H as [v [_ H]].
  injection H as _ <- _.
  apply deal_player_inv in H1 as [c [d [_ ->]]]. reflexivity.
Qed.

Lemma player_turn_counters
      (lines rest : list string) (doubled bust : bool)
      (self self' : BlackjackGame.t) (g g' : rng) :
  BlackjackGame.player_turn rng shuffle lines doubled self g
  = Ok (bust, self', g', rest) ->
  counters self' = counters self.
Proof.
  revert self g; induction lines as [| line lines IH]; intros self g H.
  - discriminate.
  - cbn [BlackjackGame.player_turn] in H.
    destruct (String.eqb (lower line) "h").
    { apply bind_Ok in H as [[[ok s1] g1] [Hhit H]].
      apply player_hit_counters in Hhit.
      assert (Hc : counters s1 = counters self)
        by (unfold ledger in Hhit; unfold counters; injection Hhit; congruence).
      destruct ok; cbn [negb] in H.
      - rewrite <- Hc. exact (IH _ _ H).
      - injection H as _ <- _ _. exact Hc. }
    destruct (String.eqb (lower line) "s").
    { injection H as _ <- _ _. reflexivity. }
    destruct (String.eqb (lower line) "d"
              && (List.length (Hand.cards (BlackjackGame.player_hand self)) =? 2)%nat
              && negb doubled).
    { destruct (BlackjackGame.player_balance self <? BlackjackGame.current_bet self).
      - exact (IH _ _ H).
      - apply bind_Ok in H as [[[ok s1] g1] [Hhit H]].
        apply player_hit_counters in Hhit.
        injection H as _ <- _ _.
        unfold ledger in Hhit; unfold counters; cbn in Hhit.
        injection Hhit; congruence. }
    exact (IH _ _ H).
Qed.

(** A pass in which the player busts on a hit or on a double down ends
    with every counter as it was before the pass: neither a loss nor a
    bust is counted. *)
Lemma bust_round_counts_nothing
      (fuel : nat) (lines l1 l3 : list string)
      (self s1 s2 s3 : BlackjackGame.t) (g g2 g3 : rng) :
  BlackjackGame.get_bet lines self = Ok (s1, l1) ->
  BlackjackGame.start_round rng shuffle s1 g = Ok (s2, g2) ->
  Hand.is_blackjack (BlackjackGame.dealer_hand s2) = Ok false ->
  Hand.is_blackjack (BlackjackGame.player_hand s2) = Ok false ->
  BlackjackGame.player_turn rng shuffle l1 false s2 g2 = Ok (true, s3, g3, l3) ->
  BlackjackGame.round rng shuffle fuel lines self g
  = BlackjackGame.play_again rng l3 s3 g3 /\
  counters s3 = counters self.
Proof.
  intros Hbet Hdeal Hd Hp Hturn. split.
  - unfold BlackjackGame.round.
    rewrite Hbet; cbn [bind]. rewrite Hdeal; cbn [bind].
    rewrite Hd; cbn [bind]. rewrite Hp; cbn [bind].
    rewrite Hturn; cbn [bind negb]. reflexivity.
  - apply player_turn_counters in Hturn. rewrite Hturn.
    apply start_round_ledger in Hdeal.
    apply get_bet_accepts in Hbet as [bet [_ ->]].
    unfold ledger in Hdeal; unfold counters; cbn in Hdeal.
    injection Hdeal; congruence.
Qed.

End Settling.

(** ** The rounds where the code departs from the rules of its ledger *)

(** C1, where the code departs from it: 100 is bet out of 1000, the player
    stands on 18 and the dealer holds 19.  [determine_winner] returns -1,
    [int(100 * -1)] is added to the balance, and the round costs 200. *)
Theorem loss_after_dealer_play_costs_two_bets :
  exists s : BlackjackGame.t,
    after (first_round eighteen_nineteen ["100"; "s"; "n"]) = Some s /\
    Hand.get_value (BlackjackGame.player_hand s) = Ok 18 /\
    Hand.get_value (BlackjackGame.dealer_hand s) = Ok 19 /\
    counters s = [0; 1; 0; 0; 0] /\
    BlackjackGame.current_bet s = 100 /\
    BlackjackGame.total_wagered s = 100 /\
    BlackjackGame.player_balance s = 1000 - 100 - 100.
Proof.
  eexists. split; [vm_compute; reflexivity |]. repeat split.
Qed.

(** The two other ways to lose cost the bet once: a dealer's natural ... *)
Lemma loss_to_dealer_natural_costs_one_bet :
  exists s : BlackjackGame.t,
    after (first_round dealer_natural ["100"; "n"]) = Some s /\
    counters s = [0; 1; 0; 0; 0] /\
    BlackjackGame.player_balance s = 1000 - 100.
Proof.
  eexists. split; [vm_compute; reflexivity |]. repeat split.
Qed.

(** ... and a bust on a hit. *)
Lemma loss_by_bust_costs_one_bet :
  exists s : BlackjackGame.t,
    after (first_round sixteen ["100"; "h"; "n"]) = Some s /\
    Hand.get_value (BlackjackGame.player_hand s) = Ok 26 /\
    BlackjackGame.player_balance s = 1000 - 100.
Proof.
  eexists. split; [vm_compute; reflexivity |]. repeat split.
Qed.

(** C2, where the code departs from it: the player hits on 16, draws a King
    and busts at 26.  The round is over and lost, and not one of wins,
    losses, pushes, blackjacks and busts has moved. *)
Theorem bust_on_hit_counts_nothing :
  exists s : BlackjackGame.t,
    after (first_round sixteen ["100"; "h"; "n"]) = Some s /\
    Hand.get_value (BlackjackGame.player_hand s) = Ok 26 /\
    BlackjackGame.player_balance s = 1000 - 100 /\
    counters (opening sixteen) = [0; 0; 0; 0; 0] /\
    counters s = [0; 0; 0; 0; 0].
Proof.
  eexists. split; [vm_compute; reflexivity |]. repeat split.
Qed.

(** C3, where the code departs from it: player and dealer both stand on 18.
    The push returns the bet of 100, and [total_won] goes from 0 to 100. *)
Theorem push_after_dealer_play_counts_as_won :
  exists s : BlackjackGame.t,
    after (first_round eighteen_each ["100"; "s"; "n"]) = Some s /\
    Hand.get_value (BlackjackGame.player_hand s) = Ok 18 /\
    Hand.get_value (BlackjackGame.dealer_hand s) = Ok 18 /\
    counters s = [0; 0; 1; 0; 0] /\
    BlackjackGame.player_balance s = 1000 /\
    BlackjackGame.total_won (opening eighteen_each) = 0 /\
    BlackjackGame.total_won s = 100.
Proof.
  eexists. split; [vm_compute; reflexivity |]. repeat split.
Qed.

(** The push of two naturals leaves [total_won] alone. *)
Lemma push_of_two_naturals_not_won :
  exists s : BlackjackGame.t,
    after (first_round two_naturals ["100"; "n"]) = Some s /\
    counters s = [0; 0; 1; 0; 0] /\
    BlackjackGame.player_balance s = 1000 /\
    BlackjackGame.total_won s = 0.
Proof.
  eexists. split; [vm_compute; reflexivity |]. repeat split.
Qed.

(** ** The dealer's turn ends *)

Lemma valid_card_points (c : Card.t) :
  valid_card c = true ->
  exists v, Card.get_value c = Ok v /\
            1 <= v - 10 * (if is_ace c then 1 else 0) <= 10.
Proof.
  destruct c as [s r]. unfold valid_card; cbn [Card.suit Card.rank].
  intros H; apply andb_true_iff in H as [_ Hr].
  destruct (valid_rank_value s r Hr) as [v [Hv [Hb Hace]]].
  exists v; split; [exact Hv |].
  destruct (is_ace (Card.mk s r)).
  - assert (v = 11) by (apply Hace; reflexivity). lia.
  - assert (v <> 11) by (intros E; apply Hace in E; discriminate). lia.
Qed.

Lemma count_aces_cons (c : Card.t) (cs : list Card.t) :
  count_aces (c :: cs) = count_aces cs + (if is_ace c then 1 else 0).
Proof.
  unfold count_aces; cbn [filter]. destruct (is_ace c); cbn [List.length]; lia.
Qed.

(** Valid cards count at least one point each, Aces as 1. *)
Lemma valid_cards_sum (cs : list Card.t) :
  valid_cards cs ->
  exists total, sum_points cs = Ok total /\
                Z.of_nat (List.length cs) <= hard_total total (count_aces cs).
Proof.
  unfold valid_cards, hard_total, sum_points.
  induction 1 as [| c cs Hc _ IH].
  - exists 0; split; [reflexivity | cbn; lia].
  - destruct IH as [total [Hsum Hle]].
    destruct (valid_card_points c Hc) as [v [Hv Hb]].
    cbn [mapM]. rewrite Hv; cbn [bind].
    destruct (mapM Card.get_value cs) as [vs | |]; cbn [bind] in *; try discriminate.
    injection Hsum as Hsum.
    exists (v + total); split.
    + cbn [fold_right]. rewrite Hsum. reflexivity.
    + rewrite count_aces_cons. cbn [List.length]. lia.
Qed.

(** A hand of valid cards has a total, and it is at least the number of
    its cards. *)
Lemma valid_hand_value (h : Hand.t) :
  valid_cards (Hand.cards h) ->
  exists v, Hand.get_value h = Ok v /\ Z.of_nat (List.length (Hand.cards h)) <= v.
Proof.
  intros Hvalid.
  destruct (valid_cards_sum _ Hvalid) as [total [Hsum Hle]].
  rewrite get_value_sum, Hsum; cbn [bind].
  eexists; split; [reflexivity |].
  pose proof (adjust_bounds (Z.to_nat (count_aces (Hand.cards h))) total) as Hb.
  unfold count_aces in Hb at 1; rewrite Nat2Z.id in Hb.
  fold (count_aces (Hand.cards h)) in Hb. lia.
Qed.

Section DealerTurn.

Variable rng : Type.
Variable shuffle : rng -> list Card.t -> list Card.t * rng.

Hypothesis shuffle_perm :
  forall (g : rng) (l : list Card.t), Permutation (fst (shuffle g l)) l.

(** A valid shoe always yields a valid card and stays valid. *)
Lemma draw_valid (d : Deck.t) (g : rng) :
  valid_shoe d ->
  exists c d' g',
    Deck.draw rng shuffle d g = Ok (c, d', g') /\
    valid_card c = true /\ valid_shoe d'.
Proof.
  intros [Hn Hcards].
  destruct (Nat.lt_ge_cases (List.length (Deck.cards d)) 10) as [Hlt | Hge].
  - destruct (draw_few rng shuffle shuffle_perm d g Hlt Hn)
      as [c [r [g' [Hp Hdraw]]]].
    assert (Hvalid : valid_cards (r ++ [c]))
      by (apply (Permutation_Forall (Permutation_sym Hp)), fresh_shoe_valid).
    apply Forall_app in Hvalid as [Hrest Hc].
    exists c, (Deck.mk r (Deck.num_decks d)), g'; split; [exact Hdraw |].
    split; [inversion Hc; assumption | split; assumption].
  - destruct (draw_plenty rng shuffle d g Hge) as [c [r [Hc Hdraw]]].
    unfold valid_cards in Hcards. rewrite Hc in Hcards.
    apply Forall_app in Hcards as [Hrest Hlast].
    exists c, (Deck.mk r (Deck.num_decks d)), g; split; [exact Hdraw |].
    split; [inversion Hlast; assumption | split; assumption].
Qed.


End DealerTurn.

(** ** The outer loop of [play] ends *)

Lemma get_bet_reads (lines rest : list string) (self self' : BlackjackGame.t) :
  BlackjackGame.get_bet lines self = Ok (self', rest) ->
  (List.length rest < List.length lines)%nat.
Proof.
  induction lines as [| line lines IH]; intros H; [discriminate |].
  cbn [BlackjackGame.get_bet] in H. cbn [List.length].
  destruct (int_of_str line) as [bet | e |].
  - destruct ((bet <=? 0) || (BlackjackGame.player_balance self <? bet)).
    + specialize (IH H); lia.
    + injection H as _ <-; lia.
  - destruct e; try discriminate. specialize (IH H); lia.
  - discriminate.
Qed.

Section PlayLoop.

Variable rng : Type.
Variable shuffle : rng -> list Card.t -> list Card.t * rng.

Lemma player_turn_reads
      (lines rest : list string) (doubled bust : bool)
      (self self' : BlackjackGame.t) (g g' : rng) :
  BlackjackGame.player_turn rng shuffle lines doubled self g
  = Ok (bust, self', g', rest) ->
  (List.length rest < List.length lines)%nat.
Proof.
  revert self g; induction lines as [| line lines IH]; intros self g H;
    [discriminate |].
  cbn [BlackjackGame.player_turn] in H. cbn [List.length].
  destruct (String.eqb (lower line) "h").
  { apply bind_Ok in H as [[[ok s1] g1] [_ H]].
    destruct ok; cbn [negb] in H.
    - specialize (IH _ _ H); lia.
    - injection H as _ _ _ <-; lia. }
  destruct (String.eqb (lower line) "s").
  { injection H as _ _ _ <-; lia. }
  destruct (String.eqb (lower line) "d"
            && (List.length (Hand.cards (BlackjackGame.player_hand self)) =? 2)%nat
            && negb doubled).
  { destruct (BlackjackGame.player_balance self <? BlackjackGame.current_bet self).
    - specialize (IH _ _ H); lia.
    - apply bind_Ok in H as [[[ok s1] g1] [_ H]].
      injection H as _ _ _ <-; lia. }
  specialize (IH _ _ H); lia.
Qed.

Lemma play_again_reads
      (lines rest : list string) (f : BlackjackGame.flow)
      (self self' : BlackjackGame.t) (g g' : rng) :
  BlackjackGame.play_again rng lines self g = Ok (f, self', g', rest) ->
  (List.length rest <= List.length lines)%nat.
Proof.
  unfold BlackjackGame.play_again.
  destruct (BlackjackGame.player_balance self <=? 0).
  - intros H; injection H as _ _ _ <-; lia.
  - destruct lines as [| line lines]; [discriminate |].
    destruct (negb (String.eqb (lower line) "y"));
      intros H; injection H as _ _ _ <-; cbn; lia.
Qed.

(** A pass that ends has read at least one line. *)
Lemma round_reads
      (fuel : nat) (lines rest : list string) (f : BlackjackGame.flow)
      (self self' : BlackjackGame.t) (g g' : rng) :
  BlackjackGame.round rng shuffle fuel lines self g = Ok (f, self', g', rest) ->
  (List.length rest < List.length lines)%nat.
Proof.
  unfold BlackjackGame.round. intros H.
  apply bind_Ok in H as [[s1 l1] [Hbet H]]. apply get_bet_reads in Hbet.
  apply bind_Ok in H as [[s2 g2] [_ H]].
  apply bind_Ok in H as [[|] [_ H]].
  - apply bind_Ok in H as [[|] [_ H]]; injection H as _ _ _ <-; exact Hbet.
  - apply bind_Ok in H as [[|] [_ H]].
    + apply bind_Ok in H as [w [_ H]]. injection H as _ _ _ <-; exact Hbet.
    + apply bind_Ok in H as [[[[bust s3] g3] l3] [Hturn H]].
      apply player_turn_reads in Hturn.
      apply bind_Ok in H as [[s5 g5] [_ H]].
      apply play_again_reads in H. lia.
Qed.

(** One pass more than there are lines is enough for the outer loop: a
    larger bound gives the same result. *)
Lemma play_loop_bound
      (n m fuel : nat) (lines : list string) (self : BlackjackGame.t) (g : rng) :
  (List.length lines < n)%nat -> (List.length lines < m)%nat ->
  BlackjackGame.play_loop rng shuffle n fuel lines self g =
  BlackjackGame.play_loop rng shuffle m fuel lines self g.
Proof.
  revert m lines self g; induction n as [| n IH]; intros m lines self g Hn Hm;
    [lia |].
  destruct m as [| m]; [lia |].
  cbn [BlackjackGame.play_loop].
  destruct (0 <? BlackjackGame.player_balance self); [| reflexivity].
  destruct (BlackjackGame.round rng shuffle fuel lines self g)
    as [[[[f s1] g1] l1] | e |] eqn:E; cbn [bind]; try reflexivity.
  destruct f; [| reflexivity].
  apply round_reads in E. apply IH; lia.
Qed.

Lemma play_bound
      (n fuel : nat) (lines : list string) (self : BlackjackGame.t) (g : rng) :
  (List.length lines < n)%nat ->
  BlackjackGame.play_loop rng shuffle n fuel lines self g =
  BlackjackGame.play rng shuffle fuel lines self g.
Proof.
  intros Hn. unfold BlackjackGame.play. apply play_loop_bound; lia.
Qed.

End PlayLoop.

(** * Further properties of the code *)

(** ** Hand totals *)

Lemma sum_points_cons (c : Card.t) (cs : list Card.t) :
  sum_points (c :: cs) =
  (v <- Card.get_value c ;; t <- sum_points cs ;; Ok (v + t)).
Proof.
  unfold sum_points; cbn [mapM].
  destruct (Card.get_value c) as [v | e |]; cbn [bind]; try reflexivity.
  destruct (mapM Card.get_value cs) as [vs | e |]; cbn [bind]; reflexivity.
Qed.

Lemma sum_points_perm (l l' : list Card.t) :
  Permutation l l' ->
  forall t, sum_points l = Ok t -> sum_points l' = Ok t.
Proof.
  induction 1 as [| c l l' _ IH | c d l | l l' l'' _ IH1 _ IH2]; intros t Ht.
  - exact Ht.
  - rewrite sum_points_cons in *.
    destruct (Card.get_value c) as [v | |]; cbn [bind] in *; try discriminate.
    destruct (sum_points l) as [t' | |]; cbn [bind] in *; try discriminate.
    rewrite (IH t' eq_refl). exact Ht.
  - rewrite !sum_points_cons in *.
    destruct (Card.get_value c) as [v | |]; cbn [bind] in *; try discriminate;
      destruct (Card.get_value d) as [w | |]; cbn [bind] in *; try discriminate.
    destruct (sum_points l) as [t' | |]; cbn [bind] in *; try discriminate.
    injection Ht as <-. f_equal; lia.
  - apply IH2, IH1, Ht.
Qed.

Lemma count_aces_perm (l l' : list Card.t) :
  Permutation l l' -> count_aces l = count_aces l'.
Proof.
  induction 1 as [| c l l' _ IH | c d l | l l' l'' _ IH1 _ IH2].
  - reflexivity.
  - rewrite !count_aces_cons, IH; reflexivity.
  - rewrite !count_aces_cons; lia.
  - congruence.
Qed.

(** X1: The total of a hand does not depend on the order in which its cards
    were added. *)
Theorem get_value_any_order (h1 h2 : Hand.t) (v : Z) :
  Permutation (Hand.cards h1) (Hand.cards h2) ->
  Hand.get_value h1 = Ok v ->
  Hand.get_value h2 = Ok v.
Proof.
  intros Hperm. rewrite !get_value_sum.
  destruct (sum_points (Hand.cards h1)) as [t | |] eqn:Ht; cbn [bind];
    try discriminate.
  rewrite (sum_points_perm _ _ Hperm t Ht); cbn [bind].
  rewrite (count_aces_perm _ _ Hperm). trivial.
Qed.

Lemma get_value_any_order_witness :
  Hand.get_value (Hand.mk [card CLUBS "9"; card HEARTS "A"; card SPADES "A"]) = Ok 21.
Proof.
  apply (get_value_any_order
           (Hand.mk [card HEARTS "A"; card SPADES "A"; card CLUBS "9"])
           (Hand.mk [card CLUBS "9"; card HEARTS "A"; card SPADES "A"]) 21).
  - cbn [Hand.cards].
    apply Permutation_sym, (Permutation_cons_app [_; _] []), Permutation_refl.
  - reflexivity.
Defined.

(** X2: Aces never bust a hand: the total exceeds 21 exactly when the total
    with every Ace counted as 1 does, and it lies between that total and
    the total with every Ace counted as 11. *)
Theorem bust_iff_hard_total (h : Hand.t) (total : Z) :
  sum_points (Hand.cards h) = Ok total ->
  exists v : Z,
    Hand.get_value h = Ok v /\
    hard_total total (count_aces (Hand.cards h)) <= v <= total /\
    (21 < v <-> 21 < hard_total total (count_aces (Hand.cards h))).
Proof.
  intros Hsum. rewrite get_value_sum, Hsum; cbn [bind].
  destruct (adjust_least (Z.to_nat (count_aces (Hand.cards h))) total)
    as [k [Hk [Hv [Hle Hgt]]]].
  rewrite Z2Nat.id in Hk, Hle by (unfold count_aces; lia).
  exists (total - 10 * k); unfold hard_total.
  split; [rewrite Hv; reflexivity |]. split; [lia |]. split; intros H.
  - destruct (Z.eq_dec k (count_aces (Hand.cards h))) as [-> | Hne]; [exact H |].
    assert (Hlt : k < count_aces (Hand.cards h)) by lia.
    specialize (Hle Hlt). lia.
  - lia.
Qed.

Lemma bust_iff_hard_total_witness :
  exists v : Z,
    Hand.get_value
      (Hand.mk [card HEARTS "A"; card SPADES "K"; card CLUBS "Q"]) = Ok v /\
    hard_total 31 1 <= v <= 31 /\
    (21 < v <-> 21 < hard_total 31 1).
Proof.
  exact (bust_iff_hard_total
           (Hand.mk [card HEARTS "A"; card SPADES "K"; card CLUBS "Q"]) 31 eq_refl).
Defined.

(** X3: Among the cards of the shoe, a natural blackjack is an Ace with a
    card that counts ten, in either order, and nothing else. *)
Theorem natural_is_ace_and_ten (c1 c2 : Card.t) :
  valid_card c1 = true -> valid_card c2 = true ->
  (Hand.is_blackjack (Hand.mk [c1; c2]) = Ok true <->
   (is_ace c1 = true /\ Card.get_value c2 = Ok 10) \/
   (Card.get_value c1 = Ok 10 /\ is_ace c2 = true)).
Proof.
  destruct c1 as [s1 r1], c2 as [s2 r2]. unfold valid_card; cbn [Card.suit Card.rank].
  intros H1 H2.
  apply andb_true_iff in H1 as [_ H1]. apply andb_true_iff in H2 as [_ H2].
  destruct (valid_rank_value s1 r1 H1) as [v1 [Hv1 [Hb1 Ha1]]].
  destruct (valid_rank_value s2 r2 H2) as [v2 [Hv2 [Hb2 Ha2]]].
  unfold Hand.is_blackjack; cbn [Hand.cards List.length Nat.eqb].
  rewrite get_value_sum; cbn [Hand.cards].
  rewrite !sum_points_cons, Hv1, Hv2; cbn [bind sum_points mapM fold_right].
  rewrite !count_aces_cons. change (count_aces []) with 0.
  rewrite Z.add_0_r.
  destruct (is_ace (Card.mk s1 r1)) eqn:E1; destruct (is_ace (Card.mk s2 r2)) eqn:E2.
  - assert (v1 = 11) as -> by (apply Ha1; reflexivity).
    assert (v2 = 11) as -> by (apply Ha2; reflexivity).
    change (Z.to_nat (0 + 1 + 1)) with 2%nat. cbn.
    split; [discriminate | intros [[_ Hx] | [Hx _]]; discriminate].
  - assert (v1 = 11) as -> by (apply Ha1; reflexivity).
    assert (Hn : v2 <> 11) by (intros E; apply Ha2 in E; discriminate).
    change (Z.to_nat (0 + 0 + 1)) with 1%nat. cbn [Hand.adjust].
    replace (21 <? 11 + v2) with false by (symmetry; apply Z.ltb_ge; lia).
    cbv iota. split.
    + intros Hx. assert (Hy : 11 + v2 = 21) by (apply Z.eqb_eq; congruence).
      left; split; [reflexivity | f_equal; lia].
    + intros [[_ Hx] | [Hx _]]; [| discriminate].
      injection Hx as ->. reflexivity.
  - assert (v2 = 11) as -> by (apply Ha2; reflexivity).
    assert (Hn : v1 <> 11) by (intros E; apply Ha1 in E; discriminate).
    change (Z.to_nat (0 + 1 + 0)) with 1%nat. cbn [Hand.adjust].
    replace (21 <? v1 + 11) with false by (symmetry; apply Z.ltb_ge; lia).
    cbv iota. split.
    + intros Hx. assert (Hy : v1 + 11 = 21) by (apply Z.eqb_eq; congruence).
      right; split; [f_equal; lia | reflexivity].
    + intros [[Hx _] | [Hx _]]; [discriminate |].
      injection Hx as ->. reflexivity.
  - assert (Hn1 : v1 <> 11) by (intros E; apply Ha1 in E; discriminate).
    assert (Hn2 : v2 <> 11) by (intros E; apply Ha2 in E; discriminate).
    change (Z.to_nat (0 + 0 + 0)) with 0%nat. cbn [Hand.adjust].
    split.
    + intros Hx. assert (Hy : v1 + v2 = 21) by (apply Z.eqb_eq; congruence). lia.
    + intros [[Hx _] | [_ Hx]]; discriminate.
Qed.

Lemma natural_is_ace_and_ten_witness :
  Hand.is_blackjack (Hand.mk [card SPADES "Q"; card HEARTS "A"]) = Ok true.
Proof.
  apply (proj2 (natural_is_ace_and_ten (card SPADES "Q") (card HEARTS "A")
                  eq_refl eq_refl)).
  right; split; reflexivity.
Defined.

(** ** The shoe after [reset] *)

Lemma copies_perm (c : Card.t) (l l' : list Card.t) :
  Permutation l l' -> copies c l = copies c l'.
Proof.
  unfold copies.
  induction 1 as [| x l l' _ IH | x y l | l l' l'' _ IH1 _ IH2]; cbn [filter].
  - reflexivity.
  - destruct (Card_eqb c x); cbn [List.length]; rewrite IH; reflexivity.
  - destruct (Card_eqb c x), (Card_eqb c y); reflexivity.
  - congruence.
Qed.

Lemma copies_app (c : Card.t) (l l' : list Card.t) :
  copies c (l ++ l') = (copies c l + copies c l')%nat.
Proof.
  unfold copies. rewrite filter_app, length_app. reflexivity.
Qed.

(** Each of the 52 cards is in a deck once, and nothing else is. *)
Lemma copies_fresh_deck (c : Card.t) :
  copies c fresh_deck = if valid_card c then 1%nat else 0%nat.
Proof.
  destruct (valid_card c) eqn:E.
  - destruct c as [s r]. unfold valid_card in E; cbn [Card.suit Card.rank] in E.
    apply andb_true_iff in E as [Hs Hr].
    unfold valid_suit, valid_rank, pyval_in in Hs, Hr.
    rewrite existsb_exists in Hs, Hr.
    destruct Hs as [x [Hx Ex]]. apply pyval_eqb_eq in Ex; subst x.
    destruct Hr as [y [Hy Ey]]. apply pyval_eqb_eq in Ey; subst y.
    unfold all_suits in Hx; cbn [map In] in Hx.
    unfold Deck.ranks in Hy; cbn [map In] in Hy.
    repeat (destruct Hx as [<- | Hx];
            [repeat (destruct Hy as [<- | Hy]; [vm_compute; reflexivity |]);
             destruct Hy |]).
    destruct Hx.
  - unfold copies.
    assert (H : forall l, Forall (fun x => valid_card x = true) l ->
                          filter (Card_eqb c) l = []).
    { induction 1 as [| x l Hx _ IH]; cbn [filter]; [reflexivity |].
      destruct (Card_eqb c x) eqn:Ex; [| exact IH].
      apply Card_eqb_eq in Ex; subst x. congruence. }
    rewrite H; [reflexivity |].
    unfold fresh_deck; simpl. repeat constructor.
Qed.

Lemma copies_fresh_shoe (c : Card.t) (n : Z) :
  copies c (fresh_shoe n) = if valid_card c then Z.to_nat n else 0%nat.
Proof.
  unfold fresh_shoe. induction (Z.to_nat n) as [| k IH]; cbn [repeat List.concat].
  - destruct (valid_card c); reflexivity.
  - rewrite copies_app, IH, copies_fresh_deck.
    destruct (valid_card c); reflexivity.
Qed.

Section Reset.

Variable rng : Type.
Variable shuffle : rng -> list Card.t -> list Card.t * rng.

Hypothesis shuffle_perm :
  forall (g : rng) (l : list Card.t), Permutation (fst (shuffle g l)) l.

(** X4: [reset] throws away what was left of the shoe and leaves [num_decks]
    times 52 cards: each of the 52 cards [num_decks] times (none at all
    when [num_decks] is zero or less), and no other card. *)
Theorem reset_rebuilds_full_shoe (self : Deck.t) (g : rng) :
  exists cs g',
    Deck.reset rng shuffle self g = Ok (Deck.mk cs (Deck.num_decks self), g') /\
    List.length cs = (52 * Z.to_nat (Deck.num_decks self))%nat /\
    forall c : Card.t,
      copies c cs = if valid_card c then Z.to_nat (Deck.num_decks self) else 0%nat.
Proof.
  destruct (reset_full_shoe rng shuffle shuffle_perm self g)
    as [cs [g' [Hreset Hperm]]].
  exists cs, g'; split; [exact Hreset |]. split.
  - rewrite (Permutation_length Hperm). apply fresh_shoe_length.
  - intros c. rewrite (copies_perm c _ _ Hperm). apply copies_fresh_shoe.
Qed.

(** X5: A new game: the shoe holds 312 cards, each of the 52 six times, the
    hands are empty, the balance is 1000 and nothing is counted yet. *)
Theorem init_new_game (g : rng) :
  exists cs g',
    BlackjackGame.init rng shuffle g =
    Ok (BlackjackGame.mk (Deck.mk cs 6) (Hand.mk []) (Hand.mk [])
                         1000 1000 0 0 0 0 0 0 0 0, g') /\
    List.length cs = 312%nat /\
    forall c : Card.t, copies c cs = if valid_card c then 6%nat else 0%nat.
Proof.
  destruct (reset_full_shoe rng shuffle shuffle_perm (Deck.mk [] 6) g)
    as [cs [g' [Hreset Hperm]]].
  exists cs, g'. unfold BlackjackGame.init, Deck.init.
  rewrite Hreset; cbn [bind Deck.num_decks]. split; [reflexivity |]. split.
  - rewrite (Permutation_length Hperm). apply fresh_shoe_length.
  - intros c. rewrite (copies_perm c _ _ Hperm). apply copies_fresh_shoe.
Qed.

End Reset.

Lemma reset_rebuilds_full_shoe_witness :
  exists cs g',
    Deck.reset stacked stack_shuffle (Deck.mk [card HEARTS "2"] 2) natural
    = Ok (Deck.mk cs 2, g') /\
    List.length cs = 104%nat /\
    forall c : Card.t, copies c cs = if valid_card c then 2%nat else 0%nat.
Proof.
  exact (reset_rebuilds_full_shoe stacked stack_shuffle stack_shuffle_perm
           (Deck.mk [card HEARTS "2"] 2) natural).
Defined.

Lemma init_new_game_witness :
  exists cs g',
    BlackjackGame.init stacked stack_shuffle natural =
    Ok (BlackjackGame.mk (Deck.mk cs 6) (Hand.mk []) (Hand.mk [])
                         1000 1000 0 0 0 0 0 0 0 0, g') /\
    List.length cs = 312%nat /\
    forall c : Card.t, copies c cs = if valid_card c then 6%nat else 0%nat.
Proof.
  exact (init_new_game stacked stack_shuffle stack_shuffle_perm natural).
Defined.

(** ** The bet loop *)



(** ** The deal *)

Lemma valid_card_value (c : Card.t) :
  valid_card c = true ->
  exists v, Card.get_value c = Ok v /\ 2 <= v <= 11 /\
            1 <= v - 10 * (if is_ace c then 1 else 0) <= 10.
Proof.
  destruct c as [s r]. unfold valid_card; cbn [Card.suit Card.rank].
  intros H; apply andb_true_iff in H as [_ Hr].
  destruct (valid_rank_value s r Hr) as [v [Hv [Hb Hace]]].
  exists v; split; [exact Hv |]. split; [exact Hb |].
  destruct (is_ace (Card.mk s r)).
  - assert (v = 11) by (apply Hace; reflexivity). lia.
  - assert (v <> 11) by (intros E; apply Hace in E; discriminate). lia.
Qed.

Lemma valid_cards_totals (cs : list Card.t) :
  valid_cards cs ->
  exists total,
    sum_points cs = Ok total /\
    2 * Z.of_nat (List.length cs) <= total /\
    0 <= count_aces cs /\
    Z.of_nat (List.length cs) <= hard_total total (count_aces cs)
    <= 10 * Z.of_nat (List.length cs).
Proof.
  unfold valid_cards, hard_total.
  induction 1 as [| c cs Hc _ IH].
  - exists 0; repeat split; cbn; lia.
  - destruct IH as [total [Hsum [H2 [Ha Hh]]]].
    destruct (valid_card_value c Hc) as [v [Hv [Hb Hp]]].
    exists (v + total). rewrite sum_points_cons, Hv, Hsum; cbn [bind].
    rewrite count_aces_cons. cbn [List.length].
    destruct (is_ace c); repeat split; lia.
Qed.

(** The total of a hand of [n] valid cards: at least [n], more than 21
    only when the cards are too many to stay under with every Ace as 1. *)
Lemma valid_hand_bounds (h : Hand.t) :
  valid_cards (Hand.cards h) ->
  exists total v,
    sum_points (Hand.cards h) = Ok total /\
    Hand.get_value h = Ok v /\
    2 * Z.of_nat (List.length (Hand.cards h)) <= total /\
    Z.of_nat (List.length (Hand.cards h)) <= v <= total /\
    (21 < v -> v <= 10 * Z.of_nat (List.length (Hand.cards h))) /\
    (v < total -> 11 < v).
Proof.
  intros Hvalid.
  destruct (valid_cards_totals _ Hvalid) as [total [Hsum [H2 [Ha Hh]]]].
  exists total. rewrite get_value_sum, Hsum; cbn [bind].
  destruct (adjust_least (Z.to_nat (count_aces (Hand.cards h))) total)
    as [k [Hk [Hv [Hle Hgt]]]].
  rewrite Z2Nat.id in Hk, Hle by exact Ha.
  unfold hard_total in Hh.
  exists (total - 10 * k). rewrite Hv.
  split; [reflexivity |]. split; [reflexivity |]. split; [exact H2 |].
  split; [lia |]. split; intros H.
  - destruct (Z.eq_dec k (count_aces (Hand.cards h))) as [-> | Hne]; [lia |].
    assert (Hlt : k < count_aces (Hand.cards h)) by lia.
    specialize (Hle Hlt). lia.
  - assert (Hpos : 0 < k) by lia. specialize (Hgt Hpos). lia.
Qed.

Section Deal.

Variable rng : Type.
Variable shuffle : rng -> list Card.t -> list Card.t * rng.

(** With ten cards or more in the shoe the card drawn is the last. *)
Lemma draw_last (r : list Card.t) (c : Card.t) (n : Z) (g : rng) :
  (9 <= List.length r)%nat ->
  Deck.draw rng shuffle (Deck.mk (r ++ [c]) n) g = Ok (c, Deck.mk r n, g).
Proof.
  intros Hlen. unfold Deck.draw. cbn [Deck.cards].
  replace (List.length (r ++ [c]) <? 10)%nat with false
    by (symmetry; apply Nat.ltb_ge; rewrite length_app; cbn; lia).
  cbn [bind Deck.cards Deck.num_decks]. rewrite pop_last. reflexivity.
Qed.

(** X7: With 13 cards or more in the shoe, [start_round] gives the player
    the last card and the third from last, the dealer the second and the
    fourth from last, in that order; hands from the round before are
    gone, four cards have left the shoe, and the ledger and the generator
    are as they were. *)
Theorem start_round_deals_alternately
        (self : BlackjackGame.t) (g : rng)
        (rest : list Card.t) (c1 c2 c3 c4 : Card.t) :
  Deck.cards (BlackjackGame.deck self) = rest ++ [c4; c3; c2; c1] ->
  (9 <= List.length rest)%nat ->
  BlackjackGame.start_round rng shuffle self g =
  Ok (BlackjackGame.mk
        (Deck.mk rest (Deck.num_decks (BlackjackGame.deck self)))
        (Hand.mk [c1; c3]) (Hand.mk [c2; c4])
        (BlackjackGame.player_balance self) (BlackjackGame.starting_balance self)
        (BlackjackGame.current_bet self)
        (BlackjackGame.wins self) (BlackjackGame.losses self)
        (BlackjackGame.pushes self) (BlackjackGame.blackjacks self)
        (BlackjackGame.busts self)
        (BlackjackGame.total_wagered self) (BlackjackGame.total_won self),
      g).
Proof.
  destruct self as [[cards n] ph dh bal start bet w l p b bu tw two].
  cbn [BlackjackGame.deck Deck.cards Deck.num_decks]. intros -> Hlen.
  unfold BlackjackGame.start_round, BlackjackGame.deal_player,
    BlackjackGame.deal_dealer, BlackjackGame.set_player_hand,
    BlackjackGame.set_dealer_hand, BlackjackGame.set_deck.
  cbn [BlackjackGame.deck BlackjackGame.player_hand BlackjackGame.dealer_hand
       BlackjackGame.player_balance BlackjackGame.starting_balance
       BlackjackGame.current_bet BlackjackGame.wins BlackjackGame.losses
       BlackjackGame.pushes BlackjackGame.blackjacks BlackjackGame.busts
       BlackjackGame.total_wagered BlackjackGame.total_won].
  change (rest ++ [c4; c3; c2; c1]) with (rest ++ [c4; c3; c2] ++ [c1]).
  rewrite app_assoc, draw_last by (rewrite length_app; cbn; lia).
  cbn [bind BlackjackGame.deck BlackjackGame.player_hand BlackjackGame.dealer_hand
       BlackjackGame.player_balance BlackjackGame.starting_balance
       BlackjackGame.current_bet BlackjackGame.wins BlackjackGame.losses
       BlackjackGame.pushes BlackjackGame.blackjacks BlackjackGame.busts
       BlackjackGame.total_wagered BlackjackGame.total_won].
  change (rest ++ [c4; c3; c2]) with (rest ++ [c4; c3] ++ [c2]).
  rewrite app_assoc, draw_last by (rewrite length_app; cbn; lia).
  cbn [bind BlackjackGame.deck BlackjackGame.player_hand BlackjackGame.dealer_hand
       BlackjackGame.player_balance BlackjackGame.starting_balance
       BlackjackGame.current_bet BlackjackGame.wins BlackjackGame.losses
       BlackjackGame.pushes BlackjackGame.blackjacks BlackjackGame.busts
       BlackjackGame.total_wagered BlackjackGame.total_won].
  change (rest ++ [c4; c3]) with (rest ++ [c4] ++ [c3]).
  rewrite app_assoc, draw_last by (rewrite length_app; cbn; lia).
  cbn [bind BlackjackGame.deck BlackjackGame.player_hand BlackjackGame.dealer_hand
       BlackjackGame.player_balance BlackjackGame.starting_balance
       BlackjackGame.current_bet BlackjackGame.wins BlackjackGame.losses
       BlackjackGame.pushes BlackjackGame.blackjacks BlackjackGame.busts
       BlackjackGame.total_wagered BlackjackGame.total_won].
  rewrite draw_last by lia.
  reflexivity.
Qed.

Hypothesis shuffle_perm :
  forall (g : rng) (l : list Card.t), Permutation (fst (shuffle g l)) l.

Lemma deal_player_ok (self : BlackjackGame.t) (g : rng) :
  valid_shoe (BlackjackGame.deck self) ->
  exists c d g',
    BlackjackGame.deal_player rng shuffle self g =
    Ok (BlackjackGame.set_player_hand (BlackjackGame.set_deck self d)
          (Hand.add_card (BlackjackGame.player_hand self) c), g') /\
    valid_card c = true /\ valid_shoe d.
Proof.
  intros Hshoe.
  destruct (draw_valid rng shuffle shuffle_perm _ g Hshoe)
    as [c [d [g' [Hdraw [Hc Hd]]]]].
  exists c, d, g'. unfold BlackjackGame.deal_player. rewrite Hdraw.
  repeat split; (assumption || apply Hd).
Qed.

Lemma deal_dealer_ok (self : BlackjackGame.t) (g : rng) :
  valid_shoe (BlackjackGame.deck self) ->
  exists c d g',
    BlackjackGame.deal_dealer rng shuffle self g =
    Ok (BlackjackGame.set_dealer_hand (BlackjackGame.set_deck self d)
          (Hand.add_card (BlackjackGame.dealer_hand self) c), g') /\
    valid_card c = true /\ valid_shoe d.
Proof.
  intros Hshoe.
  destruct (draw_valid rng shuffle shuffle_perm _ g Hshoe)
    as [c [d [g' [Hdraw [Hc Hd]]]]].
  exists c, d, g'. unfold BlackjackGame.deal_dealer. rewrite Hdraw.
  repeat split; (assumption || apply Hd).
Qed.

(** On a valid shoe the deal goes through, whether or not the shoe is
    rebuilt on the way, and leaves two valid cards in each hand. *)
Lemma start_round_ok (self : BlackjackGame.t) (g : rng) :
  valid_shoe (BlackjackGame.deck self) ->
  exists self' g' p1 p2 d1 d2,
    BlackjackGame.start_round rng shuffle self g = Ok (self', g') /\
    BlackjackGame.player_hand self' = Hand.mk [p1; p2] /\
    BlackjackGame.dealer_hand self' = Hand.mk [d1; d2] /\
    valid_cards [p1; p2] /\ valid_cards [d1; d2] /\
    valid_shoe (BlackjackGame.deck self') /\
    ledger self' = ledger self.
Proof.
  intros Hshoe. unfold BlackjackGame.start_round.
  edestruct (deal_player_ok
               (BlackjackGame.set_dealer_hand
                  (BlackjackGame.set_player_hand self Hand.init) Hand.init) g)
    as [p1 [s1 [g1 [H1 [Hp1 Hs1]]]]]; [exact Hshoe |].
  rewrite H1; cbn [bind].
  edestruct (deal_dealer_ok) as [d1 [s2 [g2 [H2 [Hd1 Hs2]]]]];
    [| rewrite H2; cbn [bind]]; [exact Hs1 |].
  edestruct (deal_player_ok) as [p2 [s3 [g3 [H3 [Hp2 Hs3]]]]];
    [| rewrite H3; cbn [bind]]; [exact Hs2 |].
  edestruct (deal_dealer_ok) as [d2 [s4 [g4 [H4 [Hd2 Hs4]]]]];
    [| rewrite H4]; [exact Hs3 |].
  eexists _, g4, p1, p2, d1, d2. split; [reflexivity |].
  repeat split; try (repeat constructor; assumption); try apply Hs4.
Qed.

(** X8: After the deal nobody is bust: on a valid shoe [start_round] ends
    with two cards in each hand, each hand between 4 and 21, and the
    ledger as it was. *)
Theorem start_round_two_cards_each (self : BlackjackGame.t) (g : rng) :
  valid_shoe (BlackjackGame.deck self) ->
  exists self' g' pv dv,
    BlackjackGame.start_round rng shuffle self g = Ok (self', g') /\
    List.length (Hand.cards (BlackjackGame.player_hand self')) = 2%nat /\
    List.length (Hand.cards (BlackjackGame.dealer_hand self')) = 2%nat /\
    Hand.get_value (BlackjackGame.player_hand self') = Ok pv /\ 4 <= pv <= 21 /\
    Hand.get_value (BlackjackGame.dealer_hand self') = Ok dv /\ 4 <= dv <= 21 /\
    valid_shoe (BlackjackGame.deck self') /\
    ledger self' = ledger self.
Proof.
  intros Hshoe.
  destruct (start_round_ok self g Hshoe)
    as [self' [g' [p1 [p2 [d1 [d2 [Hs [Hp [Hd [Vp [Vd [Hshoe' Hl]]]]]]]]]]]].
  destruct (valid_hand_bounds (Hand.mk [p1; p2]) Vp)
    as [tp [pv [_ [Hpv [Hp2 [Hpn [Hpb Hps]]]]]]].
  destruct (valid_hand_bounds (Hand.mk [d1; d2]) Vd)
    as [td [dv [_ [Hdv [Hd2 [Hdn [Hdb Hds]]]]]]].
  cbn [Hand.cards List.length] in *.
  exists self', g', pv, dv. rewrite Hp, Hd.
  repeat split; try assumption; try apply Hshoe'; try lia.
Qed.

End Deal.

Lemma start_round_deals_alternately_witness :
  BlackjackGame.start_round stacked stack_shuffle
    (with_bet (opening eleven) 100) eleven =
  Ok (eleven_dealt, eleven).
Proof.
  apply (start_round_deals_alternately stacked stack_shuffle
           (with_bet (opening eleven) 100) eleven
           (firstn 308 (Deck.cards (stacked_shoe eleven)))
           (card HEARTS "5") (card CLUBS "9") (card SPADES "6") (card DIAMONDS "8")).
  - vm_compute. reflexivity.
  - vm_compute. lia.
Defined.

Lemma start_round_two_cards_each_witness :
  exists self' g' pv dv,
    BlackjackGame.start_round stacked stack_shuffle (opening natural) natural
    = Ok (self', g') /\
    List.length (Hand.cards (BlackjackGame.player_hand self')) = 2%nat /\
    List.length (Hand.cards (BlackjackGame.dealer_hand self')) = 2%nat /\
    Hand.get_value (BlackjackGame.player_hand self') = Ok pv /\ 4 <= pv <= 21 /\
    Hand.get_value (BlackjackGame.dealer_hand self') = Ok dv /\ 4 <= dv <= 21 /\
    valid_shoe (BlackjackGame.deck self') /\
    ledger self' = ledger (opening natural).
Proof.
  apply (start_round_two_cards_each stacked stack_shuffle stack_shuffle_perm
           (opening natural) natural).
  split; [cbn; lia |].
  unfold valid_cards, opening, stacked_shoe; cbn [BlackjackGame.deck Deck.cards].
  apply (Permutation_Forall (Permutation_sym (stack_shuffle_perm natural (fresh_shoe 6)))).
  apply fresh_shoe_valid.
Defined.

(** ** The dealer's turn *)

(** One more valid card takes a hand to 21 or less, or up by ten at
    most. *)
Lemma value_after_card (cs : list Card.t) (c : Card.t) (v : Z) :
  valid_cards cs -> valid_card c = true ->
  Hand.get_value (Hand.mk cs) = Ok v ->
  exists v',
    Hand.get_value (Hand.mk (cs ++ [c])) = Ok v' /\
    (v' <= 21 \/ v' <= v + 10).
Proof.
  intros Hcs Hc Hv.
  destruct (valid_cards_totals cs Hcs) as [total [Hsum [_ [Ha _]]]].
  destruct (valid_card_value c Hc) as [p [Hp [_ Hhp]]].
  rewrite get_value_sum in Hv; cbn [Hand.cards] in Hv.
  rewrite Hsum in Hv; cbn [bind] in Hv. injection Hv as Hv.
  destruct (adjust_least (Z.to_nat (count_aces cs)) total) as [k [Hk [Hvk _]]].
  rewrite Z2Nat.id in Hk by exact Ha.
  assert (Hperm : Permutation (c :: cs) (cs ++ [c]))
    by apply Permutation_cons_append.
  assert (Hsum' : sum_points (cs ++ [c]) = Ok (p + total)).
  { apply (sum_points_perm _ _ Hperm).
    rewrite sum_points_cons, Hp, Hsum. reflexivity. }
  assert (Haces : count_aces (cs ++ [c])
                  = count_aces cs + (if is_ace c then 1 else 0))
    by (rewrite <- (count_aces_perm _ _ Hperm); apply count_aces_cons).
  rewrite get_value_sum; cbn [Hand.cards]. rewrite Hsum'; cbn [bind].
  destruct (adjust_least (Z.to_nat (count_aces (cs ++ [c]))) (p + total))
    as [k' [Hk' [Hv' [Hle' _]]]].
  rewrite Z2Nat.id in Hk', Hle' by (rewrite Haces; destruct (is_ace c); lia).
  eexists; split; [reflexivity |]. rewrite Hv'.
  destruct (Z.eq_dec k' (count_aces (cs ++ [c]))) as [Heq | Hne].
  - right. rewrite Heq, Haces, <- Hv, Hvk. destruct (is_ace c); lia.
  - left. apply Hle'. lia.
Qed.

Section DealerStands.

Variable rng : Type.
Variable shuffle : rng -> list Card.t -> list Card.t * rng.

Hypothesis shuffle_perm :
  forall (g : rng) (l : list Card.t), Permutation (fst (shuffle g l)) l.

(** X9: The dealer's turn on a valid shoe, the dealer holding valid cards
    that total 26 or less (two cards always do).  Seventeen draws are
    never used up: the turn ends with the dealer between 17 and 26, the
    cards drawn added behind the ones held.  A dealer already on 17 or
    more draws nothing and a dealer below 17 draws at least once.  The
    ledger and the player's hand are untouched. *)
Theorem dealer_stands_17_to_26
        (fuel : nat) (self : BlackjackGame.t) (g : rng) (v0 : Z) :
  valid_shoe (BlackjackGame.deck self) ->
  valid_cards (Hand.cards (BlackjackGame.dealer_hand self)) ->
  Hand.get_value (BlackjackGame.dealer_hand self) = Ok v0 ->
  v0 <= 26 ->
  (17 <= fuel)%nat ->
  exists self' g' v drawn,
    BlackjackGame.dealer_play rng shuffle fuel self g = Ok (self', g') /\
    Hand.get_value (BlackjackGame.dealer_hand self') = Ok v /\
    17 <= v <= 26 /\
    Hand.cards (BlackjackGame.dealer_hand self')
    = Hand.cards (BlackjackGame.dealer_hand self) ++ drawn /\
    valid_cards drawn /\
    (17 <= v0 -> drawn = [] /\ self' = self /\ g' = g) /\
    (v0 < 17 -> drawn <> []) /\
    ledger self' = ledger self /\
    BlackjackGame.player_hand self' = BlackjackGame.player_hand self /\
    valid_shoe (BlackjackGame.deck self').
Proof.
  intros Hshoe Hhand Hv0 H26 Hfuel.
  assert (Hfuel' : (17 <= fuel
                    + List.length (Hand.cards (BlackjackGame.dealer_hand self)))%nat)
    by lia.
  clear Hfuel. revert self g v0 Hshoe Hhand Hv0 H26 Hfuel'.
  induction fuel as [| fuel IH]; intros self g v0 Hshoe Hhand Hv0 H26 Hfuel;
    destruct (valid_hand_value _ Hhand) as [v [Hv Hlen]];
    rewrite Hv0 in Hv; injection Hv as <-;
    cbn [BlackjackGame.dealer_play]; rewrite Hv0; cbn [bind];
    destruct (v0 <? 17) eqn:E.
  - apply Z.ltb_lt in E. lia.
  - apply Z.ltb_ge in E. exists self, g, v0, [].
    rewrite app_nil_r. repeat split; try assumption; try lia; try apply Hshoe.
    constructor.
  - apply Z.ltb_lt in E.
    destruct (deal_dealer_ok rng shuffle shuffle_perm self g Hshoe)
      as [c [d [g1 [Hdeal [Hc Hd]]]]].
    rewrite Hdeal; cbn [bind].
    destruct (value_after_card _ c v0 Hhand Hc) as [v1 [Hv1 Hb1]].
    { destruct (BlackjackGame.dealer_hand self); exact Hv0. }
    edestruct (IH (BlackjackGame.set_dealer_hand (BlackjackGame.set_deck self d)
                     (Hand.add_card (BlackjackGame.dealer_hand self) c)) g1 v1)
      as [self' [g' [v [drawn [Hplay [Hv [Hr [Hcards [Hdrawn
           [_ [_ [Hledger [Hplayer Hshoe']]]]]]]]]]]]].
    + exact Hd.
    + cbn. apply Forall_app; split; [exact Hhand | repeat constructor; exact Hc].
    + exact Hv1.
    + lia.
    + cbn. rewrite length_app; cbn. lia.
    + exists self', g', v, (c :: drawn). rewrite Hplay.
      split; [reflexivity |]. split; [exact Hv |]. split; [exact Hr |].
      split; [rewrite Hcards; cbn; rewrite <- app_assoc; reflexivity |].
      split; [constructor; assumption |].
      split; [intros; lia |]. split; [intros _; discriminate |].
      split; [exact Hledger |]. split; [exact Hplayer | exact Hshoe'].
  - apply Z.ltb_ge in E. exists self, g, v0, [].
    rewrite app_nil_r. repeat split; try assumption; try lia; try apply Hshoe.
    constructor.
Qed.

End DealerStands.

Lemma valid_cards_forallb (l : list Card.t) :
  forallb valid_card l = true -> valid_cards l.
Proof.
  intros H. apply Forall_forall. apply forallb_forall. exact H.
Qed.

Lemma dealer_stands_17_to_26_witness :
  exists self' g' v drawn,
    BlackjackGame.dealer_play stacked stack_shuffle 17 eleven_dealt eleven
    = Ok (self', g') /\
    Hand.get_value (BlackjackGame.dealer_hand self') = Ok v /\
    17 <= v <= 26 /\
    Hand.cards (BlackjackGame.dealer_hand self')
    = [card CLUBS "9"; card DIAMONDS "8"] ++ drawn /\
    valid_cards drawn /\
    (17 <= 17 -> drawn = [] /\ self' = eleven_dealt /\ g' = eleven) /\
    (17 < 17 -> drawn <> []) /\
    ledger self' = ledger eleven_dealt /\
    BlackjackGame.player_hand self' = BlackjackGame.player_hand eleven_dealt /\
    valid_shoe (BlackjackGame.deck self').
Proof.
  apply (dealer_stands_17_to_26 stacked stack_shuffle stack_shuffle_perm
           17 eleven_dealt eleven 17).
  - split; [cbn; lia | apply valid_cards_forallb; vm_compute; reflexivity].
  - repeat constructor.
  - reflexivity.
  - lia.
  - lia.
Defined.

(** ** Who wins *)

Lemma is_blackjack_of_value (h : Hand.t) (v : Z) :
  Hand.get_value h = Ok v ->
  Hand.is_blackjack h = Ok (natural_21 (List.length (Hand.cards h)) v).
Proof.
  intros Hv. unfold Hand.is_blackjack, natural_21. rewrite Hv; cbn [bind].
  destruct (List.length (Hand.cards h) =? 2)%nat; reflexivity.
Qed.

(** X10: The rules of [determine_winner] without their order, [pn] and [dn]
    telling whether the player and the dealer hold a natural.  The player
    loses when bust, or when the dealer is not bust and is higher or
    holds the only natural; the round is a push when nobody is bust, the
    totals are equal and both or neither hold a natural; it pays 2.5 for
    the only natural against a dealer who is not bust, and 2 otherwise: a
    natural against a bust dealer pays 2. *)
Theorem determine_winner_decides (self : BlackjackGame.t) (pv dv : Z) :
  Hand.get_value (BlackjackGame.player_hand self) = Ok pv ->
  Hand.get_value (BlackjackGame.dealer_hand self) = Ok dv ->
  let pn := natural_21 (List.length (Hand.cards (BlackjackGame.player_hand self))) pv in
  let dn := natural_21 (List.length (Hand.cards (BlackjackGame.dealer_hand self))) dv in
  exists m msg self',
    BlackjackGame.determine_winner self = Ok (m, msg, self') /\
    (m = NInt (-1) <->
     21 < pv \/ (dv <= 21 /\ (pv < dv \/ (dn = true /\ pn = false)))) /\
    (m = NInt 1 <-> pv <= 21 /\ dv = pv /\ pn = dn) /\
    (m = NFloat two_and_a_half <-> dv <= 21 /\ pn = true /\ dn = false) /\
    (m = NInt 2 <-> pv <= 21 /\ (21 < dv \/ (dv < pv /\ pn = false))).
Proof.
  intros Hp Hd pn dn. unfold BlackjackGame.determine_winner.
  rewrite Hp, Hd; cbn [bind].
  rewrite (is_blackjack_of_value _ _ Hp), (is_blackjack_of_value _ _ Hd).
  fold pn dn.
  assert (Hpn : pn = true -> pv = 21).
  { unfold pn, natural_21. intros H; apply andb_true_iff in H as [_ H'].
    apply Z.eqb_eq; exact H'. }
  assert (Hdn : dn = true -> dv = 21).
  { unfold dn, natural_21. intros H; apply andb_true_iff in H as [_ H'].
    apply Z.eqb_eq; exact H'. }
  clearbody pn dn. unfold BlackjackGame.py_and, BlackjackGame.py_not.
  destruct (21 <? pv) eqn:E1; [apply Z.ltb_lt in E1 | apply Z.ltb_ge in E1];
    (destruct (21 <? dv) eqn:E2; [apply Z.ltb_lt in E2 | apply Z.ltb_ge in E2]);
    (destruct (dv <? pv) eqn:E3; [apply Z.ltb_lt in E3 | apply Z.ltb_ge in E3]);
    (destruct (pv <? dv) eqn:E4; [apply Z.ltb_lt in E4 | apply Z.ltb_ge in E4]);
    try lia;
    destruct pn; destruct dn; cbn [bind negb];
    try (specialize (Hpn eq_refl)); try (specialize (Hdn eq_refl));
    try lia;
    (do 3 eexists; split; [reflexivity |]);
    intuition (discriminate || lia || congruence).
Qed.

Lemma determine_winner_decides_witness :
  exists m msg self',
    BlackjackGame.determine_winner natural_against_21 = Ok (m, msg, self') /\
    (m = NInt (-1) <->
     21 < 21 \/ (21 <= 21 /\ (21 < 21 \/ (natural_21 3 21 = true /\ natural_21 2 21 = false)))) /\
    (m = NInt 1 <-> 21 <= 21 /\ 21 = 21 /\ natural_21 2 21 = natural_21 3 21) /\
    (m = NFloat two_and_a_half <->
     21 <= 21 /\ natural_21 2 21 = true /\ natural_21 3 21 = false) /\
    (m = NInt 2 <-> 21 <= 21 /\ (21 < 21 \/ (21 < 21 /\ natural_21 2 21 = false))).
Proof.
  exact (determine_winner_decides natural_against_21 21 21 eq_refl eq_refl).
Defined.

(** X11: [determine_winner] moves the counter that goes with the multiplier it
    returns, by one, and nothing else: -1 counts a loss, and a bust as
    well when the player is over 21; 1 counts a push; 2 counts a win; 2.5
    counts a win and a blackjack.  The multiplier is never 0.  The shoe,
    the hands, the balance, the bet and the totals wagered and won are as
    they were. *)
Theorem determine_winner_counts_by_multiplier
        (self self' : BlackjackGame.t) (m : pynum) (msg : string) :
  BlackjackGame.determine_winner self = Ok (m, msg, self') ->
  let w := BlackjackGame.wins self in
  let l := BlackjackGame.losses self in
  let p := BlackjackGame.pushes self in
  let b := BlackjackGame.blackjacks self in
  let bu := BlackjackGame.busts self in
  exists pv,
    Hand.get_value (BlackjackGame.player_hand self) = Ok pv /\
    ((m = NInt (-1) /\
      counters self' = [w; l + 1; p; b; bu + (if 21 <? pv then 1 else 0)]) \/
     (m = NInt 1 /\ counters self' = [w; l; p + 1; b; bu]) \/
     (m = NInt 2 /\ counters self' = [w + 1; l; p; b; bu]) \/
     (m = NFloat two_and_a_half /\ counters self' = [w + 1; l; p; b + 1; bu])) /\
    BlackjackGame.deck self' = BlackjackGame.deck self /\
    BlackjackGame.player_hand self' = BlackjackGame.player_hand self /\
    BlackjackGame.dealer_hand self' = BlackjackGame.dealer_hand self /\
    BlackjackGame.player_balance self' = BlackjackGame.player_balance self /\
    BlackjackGame.starting_balance self' = BlackjackGame.starting_balance self /\
    BlackjackGame.current_bet self' = BlackjackGame.current_bet self /\
    BlackjackGame.total_wagered self' = BlackjackGame.total_wagered self /\
    BlackjackGame.total_won self' = BlackjackGame.total_won self.
Proof.
  intros H w l p b bu. subst w l p b bu.
  unfold BlackjackGame.determine_winner, BlackjackGame.py_and, BlackjackGame.py_not in H.
  destruct (Hand.get_value (BlackjackGame.player_hand self)) as [pv | |];
    cbn [bind] in H; try discriminate.
  destruct (Hand.get_value (BlackjackGame.dealer_hand self)) as [dv | |];
    cbn [bind] in H; try discriminate.
  exists pv. split; [reflexivity |].
  destruct (21 <? pv); destruct (21 <? dv);
    destruct (Hand.is_blackjack (BlackjackGame.player_hand self)) as [[|] | |];
    destruct (Hand.is_blackjack (BlackjackGame.dealer_hand self)) as [[|] | |];
    destruct (dv <? pv); destruct (pv <? dv);
    cbn [bind negb] in H; try discriminate H;
    injection H as <- <- <-;
    (split; [| repeat split]);
    first [ left; split; [reflexivity | cbn; rewrite ?Z.add_0_r; reflexivity]
          | right; left; split; reflexivity
          | right; right; left; split; reflexivity
          | right; right; right; split; reflexivity ].
Qed.

Lemma determine_winner_counts_by_multiplier_witness :
  exists pv,
    Hand.get_value (BlackjackGame.player_hand natural_against_21) = Ok pv /\
    ((NFloat two_and_a_half = NInt (-1) /\
      [1; 0; 0; 1; 0] = [0; 0 + 1; 0; 0; 0 + (if 21 <? pv then 1 else 0)]) \/
     (NFloat two_and_a_half = NInt 1 /\ [1; 0; 0; 1; 0] = [0; 0; 0 + 1; 0; 0]) \/
     (NFloat two_and_a_half = NInt 2 /\ [1; 0; 0; 1; 0] = [0 + 1; 0; 0; 0; 0]) \/
     (NFloat two_and_a_half = NFloat two_and_a_half /\
      [1; 0; 0; 1; 0] = [0 + 1; 0; 0; 0 + 1; 0])) /\
    Deck.mk fresh_deck 6 = Deck.mk fresh_deck 6 /\
    BlackjackGame.player_hand natural_against_21
    = BlackjackGame.player_hand natural_against_21 /\
    BlackjackGame.dealer_hand natural_against_21
    = BlackjackGame.dealer_hand natural_against_21 /\
    900 = 900 /\ 1000 = 1000 /\ 100 = 100 /\ 100 = 100 /\ 0 = 0.
Proof.
  exact (determine_winner_counts_by_multiplier
           natural_against_21
           (BlackjackGame.mk
              (Deck.mk fresh_deck 6)
              (Hand.mk [card HEARTS "A"; card SPADES "K"])
              (Hand.mk [card CLUBS "7"; card DIAMONDS "7"; card HEARTS "7"])
              900 1000 100 1 0 0 1 0 100 0)
           (NFloat two_and_a_half) "Blackjack! Player wins!" eq_refl).
Defined.

(** ** The player's turn *)

Section PlayerTurn.

Variable rng : Type.
Variable shuffle : rng -> list Card.t -> list Card.t * rng.

Lemma player_hit_inv (self self' : BlackjackGame.t) (g g' : rng) (ok : bool) :
  BlackjackGame.player_hit rng shuffle self g = Ok (ok, self', g') ->
  exists c d v,
    Deck.draw rng shuffle (BlackjackGame.deck self) g = Ok (c, d, g') /\
    self' = BlackjackGame.set_player_hand (BlackjackGame.set_deck self d)
              (Hand.add_card (BlackjackGame.player_hand self) c) /\
    Hand.get_value (BlackjackGame.player_hand self') = Ok v /\
    ok = (v <=? 21).
Proof.
  unfold BlackjackGame.player_hit. intros H.
  apply bind_Ok in H as [[s1 g1] [H1 H]].
  apply bind_Ok in H as [v [Hv H]].
  injection H as <- <- <-.
  apply deal_player_inv in H1 as [c [d [Hdraw ->]]].
  exists c, d, v. repeat split; assumption.
Qed.

(** The ledger through the player's turn: what is wagered beyond the
    current bet does not change, nor does balance plus wagered. *)
Lemma player_turn_wager
      (lines rest : list string) (doubled bust : bool)
      (self self' : BlackjackGame.t) (g g' : rng) :
  BlackjackGame.player_turn rng shuffle lines doubled self g
  = Ok (bust, self', g', rest) ->
  BlackjackGame.total_wagered self' - BlackjackGame.current_bet self'
  = BlackjackGame.total_wagered self - BlackjackGame.current_bet self /\
  BlackjackGame.player_balance self' + BlackjackGame.total_wagered self'
  = BlackjackGame.player_balance self + BlackjackGame.total_wagered self /\
  BlackjackGame.starting_balance self' = BlackjackGame.starting_balance self /\
  BlackjackGame.total_won self' = BlackjackGame.total_won self /\
  BlackjackGame.dealer_hand self' = BlackjackGame.dealer_hand self /\
  (0 < BlackjackGame.current_bet self -> 0 < BlackjackGame.current_bet self').
Proof.
  revert self g; induction lines as [| line lines IH]; intros self g H;
    [discriminate |].
  cbn [BlackjackGame.player_turn] in H.
  destruct (String.eqb (lower line) "h").
  { apply bind_Ok in H as [[[ok s1] g1] [Hhit H]].
    apply player_hit_inv in Hhit as [c [d [v [_ [-> _]]]]].
    destruct ok; cbn [negb] in H.
    - apply IH in H. cbn in H. exact H.
    - injection H as _ <- _ _. cbn. repeat split; trivial. }
  destruct (String.eqb (lower line) "s").
  { injection H as _ <- _ _. repeat split; trivial. }
  destruct (String.eqb (lower line) "d"
            && (List.length (Hand.cards (BlackjackGame.player_hand self)) =? 2)%nat
            && negb doubled).
  { destruct (BlackjackGame.player_balance self <? BlackjackGame.current_bet self).
    - exact (IH _ _ H).
    - apply bind_Ok in H as [[[ok s1] g1] [Hhit H]].
      apply player_hit_inv in Hhit as [c [d [v [_ [-> _]]]]].
      injection H as _ <- _ _. cbn.
      rewrite Z.div_mul by lia. repeat split; lia. }
  exact (IH _ _ H).
Qed.

(** X12: The player's turn, begun at 21 or less.  It ends bust exactly when
    the hand is over 21.  The cards drawn are added behind the cards
    held; the dealer's hand, the counters, [starting_balance] and
    [total_won] are untouched; and either the bet, the balance and the
    total wagered are as they were, or the bet has doubled, once, the
    balance having covered it, with the balance down and the total
    wagered up by the bet as it was. *)
Theorem player_turn_outcome
        (lines rest : list string) (doubled bust : bool)
        (self self' : BlackjackGame.t) (g g' : rng) (v0 : Z) :
  Hand.get_value (BlackjackGame.player_hand self) = Ok v0 ->
  v0 <= 21 ->
  BlackjackGame.player_turn rng shuffle lines doubled self g
  = Ok (bust, self', g', rest) ->
  exists v drawn,
    Hand.get_value (BlackjackGame.player_hand self') = Ok v /\
    (bust = true <-> 21 < v) /\
    Hand.cards (BlackjackGame.player_hand self')
    = Hand.cards (BlackjackGame.player_hand self) ++ drawn /\
    BlackjackGame.dealer_hand self' = BlackjackGame.dealer_hand self /\
    counters self' = counters self /\
    BlackjackGame.starting_balance self' = BlackjackGame.starting_balance self /\
    BlackjackGame.total_won self' = BlackjackGame.total_won self /\
    ((BlackjackGame.current_bet self' = BlackjackGame.current_bet self /\
      BlackjackGame.player_balance self' = BlackjackGame.player_balance self /\
      BlackjackGame.total_wagered self' = BlackjackGame.total_wagered self) \/
     (doubled = false /\
      BlackjackGame.current_bet self <= BlackjackGame.player_balance self /\
      BlackjackGame.current_bet self' = 2 * BlackjackGame.current_bet self /\
      BlackjackGame.player_balance self'
      = BlackjackGame.player_balance self - BlackjackGame.current_bet self /\
      BlackjackGame.total_wagered self'
      = BlackjackGame.total_wagered self + BlackjackGame.current_bet self)).
Proof.
  revert self g v0; induction lines as [| line lines IH]; intros self g v0 Hv0 H21 H;
    [discriminate |].
  cbn [BlackjackGame.player_turn] in H.
  destruct (String.eqb (lower line) "h").
  { apply bind_Ok in H as [[[ok s1] g1] [Hhit H]].
    apply player_hit_inv in Hhit as [c [d [v [_ [-> [Hv ->]]]]]].
    destruct (v <=? 21) eqn:E; cbn [negb] in H.
    - apply Z.leb_le in E.
      destruct (IH _ _ v Hv E H)
        as [v' [drawn [Hv' [Hb [Hc [Hd [Hcnt [Hs [Hw Hm]]]]]]]]].
      exists v', (c :: drawn). cbn in Hc, Hd, Hcnt, Hs, Hw, Hm.
      rewrite <- app_assoc in Hc. repeat split; try tauto; assumption.
    - apply Z.leb_gt in E. injection H as <- <- _ _.
      exists v, [c]. split; [exact Hv |].
      split; [split; [intros _; exact E | reflexivity] |].
      cbn. repeat split; try reflexivity. left; repeat split. }
  destruct (String.eqb (lower line) "s").
  { injection H as <- <- _ _. exists v0, []. rewrite app_nil_r.
    split; [exact Hv0 |].
    split; [split; [discriminate | lia] |].
    repeat split; try reflexivity. left; repeat split. }
  destruct (String.eqb (lower line) "d"
            && (List.length (Hand.cards (BlackjackGame.player_hand self)) =? 2)%nat
            && negb doubled) eqn:Ed.
  { destruct (BlackjackGame.player_balance self <? BlackjackGame.current_bet self)
      eqn:Eb.
    - exact (IH _ _ v0 Hv0 H21 H).
    - apply Z.ltb_ge in Eb.
      apply andb_true_iff in Ed as [_ Ed]. apply negb_true_iff in Ed.
      apply bind_Ok in H as [[[ok s1] g1] [Hhit H]].
      apply player_hit_inv in Hhit as [c [d [v [_ [-> [Hv ->]]]]]].
      injection H as <- <- _ _.
      exists v, [c]. split; [exact Hv |]. split.
      + destruct (v <=? 21) eqn:E; cbn [negb];
          [apply Z.leb_le in E | apply Z.leb_gt in E];
          split; intros Hx; (discriminate || lia || reflexivity).
      + cbn -[Z.mul Z.div Z.add Z.sub]. rewrite Z.div_mul by lia.
        repeat split; try reflexivity. right. repeat split; (assumption || lia). }
  exact (IH _ _ v0 Hv0 H21 H).
Qed.

End PlayerTurn.

Lemma player_turn_outcome_witness :
  exists v drawn,
    Hand.get_value
      (Hand.mk [card HEARTS "5"; card SPADES "6"; card HEARTS "K"]) = Ok v /\
    (false = true <-> 21 < v) /\
    [card HEARTS "5"; card SPADES "6"; card HEARTS "K"]
    = [card HEARTS "5"; card SPADES "6"] ++ drawn /\
    Hand.mk [card CLUBS "9"; card DIAMONDS "8"]
    = Hand.mk [card CLUBS "9"; card DIAMONDS "8"] /\
    [0; 0; 0; 0; 0] = [0; 0; 0; 0; 0] /\
    1000 = 1000 /\ 0 = 0 /\
    ((100 = 100 /\ 900 = 900 /\ 100 = 100) \/
     (false = false /\ 100 <= 900 /\ 100 = 2 * 100 /\ 900 = 900 - 100 /\
      100 = 100 + 100)).
Proof.
  apply (player_turn_outcome stacked stack_shuffle
           ["x"; "H"; "s"; "n"] ["n"] false false
           eleven_dealt
           (BlackjackGame.mk
              (Deck.mk (firstn 307 (Deck.cards (stacked_shoe eleven))) 6)
              (Hand.mk [card HEARTS "5"; card SPADES "6"; card HEARTS "K"])
              (Hand.mk [card CLUBS "9"; card DIAMONDS "8"])
              900 1000 100 0 0 0 0 0 100 0)
           eleven eleven 11).
  - reflexivity.
  - lia.
  - vm_compute. reflexivity.
Defined.

(** ** One pass through the loop of [play] *)

Lemma determine_winner_frame
      (self self' : BlackjackGame.t) (m : pynum) (msg : string) :
  BlackjackGame.determine_winner self = Ok (m, msg, self') ->
  exists pv,
    Hand.get_value (BlackjackGame.player_hand self) = Ok pv /\
    BlackjackGame.busts self'
    = BlackjackGame.busts self + (if 21 <? pv then 1 else 0) /\
    0 <= BlackjackGame.blackjacks self' - BlackjackGame.blackjacks self
    <= BlackjackGame.wins self' - BlackjackGame.wins self /\
    BlackjackGame.deck self' = BlackjackGame.deck self /\
    BlackjackGame.player_balance self' = BlackjackGame.player_balance self /\
    BlackjackGame.starting_balance self' = BlackjackGame.starting_balance self /\
    BlackjackGame.current_bet self' = BlackjackGame.current_bet self /\
    BlackjackGame.total_wagered self' = BlackjackGame.total_wagered self /\
    BlackjackGame.total_won self' = BlackjackGame.total_won self.
Proof.
  intros H.
  unfold BlackjackGame.determine_winner, BlackjackGame.py_and, BlackjackGame.py_not in H.
  destruct (Hand.get_value (BlackjackGame.player_hand self)) as [pv | |];
    cbn [bind] in H; try discriminate.
  destruct (Hand.get_value (BlackjackGame.dealer_hand self)) as [dv | |];
    cbn [bind] in H; try discriminate.
  exists pv. split; [reflexivity |].
  destruct (21 <? pv); destruct (21 <? dv);
    destruct (Hand.is_blackjack (BlackjackGame.player_hand self)) as [[|] | |];
    destruct (Hand.is_blackjack (BlackjackGame.dealer_hand self)) as [[|] | |];
    destruct (dv <? pv); destruct (pv <? dv);
    cbn [bind negb] in H; try discriminate H;
    injection H as <- <- <-;
    cbn -[Z.add Z.sub]; repeat split; lia.
Qed.

Section Round.

Variable rng : Type.
Variable shuffle : rng -> list Card.t -> list Card.t * rng.

Lemma dealer_play_frame (fuel : nat) (self self' : BlackjackGame.t) (g g' : rng) :
  BlackjackGame.dealer_play rng shuffle fuel self g = Ok (self', g') ->
  ledger self' = ledger self /\
  BlackjackGame.player_hand self' = BlackjackGame.player_hand self.
Proof.
  revert self g; induction fuel as [| fuel IH]; intros self g H;
    cbn [BlackjackGame.dealer_play] in H;
    apply bind_Ok in H as [v [_ H]];
    destruct (v <? 17);
    try discriminate;
    try (injection H as <- _; split; reflexivity).
  apply bind_Ok in H as [[s1 g1] [Hdeal H]].
  apply deal_dealer_inv in Hdeal as [c [d [_ ->]]].
  apply IH in H. exact H.
Qed.

(** What [settle] does to the ledger. *)
Lemma settle_frame (fuel : nat) (self self' : BlackjackGame.t) (g g' : rng) :
  BlackjackGame.settle rng shuffle fuel self g = Ok (self', g') ->
  BlackjackGame.starting_balance self' = BlackjackGame.starting_balance self /\
  BlackjackGame.current_bet self' = BlackjackGame.current_bet self /\
  BlackjackGame.total_wagered self' = BlackjackGame.total_wagered self /\
  (BlackjackGame.wins self' - BlackjackGame.wins self)
  + (BlackjackGame.losses self' - BlackjackGame.losses self)
  + (BlackjackGame.pushes self' - BlackjackGame.pushes self) = 1 /\
  0 <= BlackjackGame.wins self' - BlackjackGame.wins self /\
  0 <= BlackjackGame.losses self' - BlackjackGame.losses self /\
  0 <= BlackjackGame.pushes self' - BlackjackGame.pushes self /\
  0 <= BlackjackGame.blackjacks self' - BlackjackGame.blackjacks self
  <= BlackjackGame.wins self' - BlackjackGame.wins self /\
  exists pv,
    Hand.get_value (BlackjackGame.player_hand self) = Ok pv /\
    BlackjackGame.busts self'
    = BlackjackGame.busts self + (if 21 <? pv then 1 else 0).
Proof.
  unfold BlackjackGame.settle. intros H.
  apply bind_Ok in H as [[s1 g1] [Hplay H]].
  apply bind_Ok in H as [[[m msg] s2] [Hwin H]].
  apply bind_Ok in H as [payout [_ H]].
  apply dealer_play_frame in Hplay as [Hl Hp].
  destruct (determine_winner_counts _ _ _ _ Hwin) as [_ [Hone [Hw [Hlo Hpu]]]].
  destruct (determine_winner_frame _ _ _ _ Hwin)
    as [pv [Hpv [Hbu [Hbj [_ [_ [Hst [Hcb [Htw _]]]]]]]]].
  rewrite Hp in Hpv.
  unfold ledger in Hl.
  injection Hl as Hl1 Hl2 Hl3 Hl4 Hl5 Hl6 Hl7 Hl8 Hl9 Hl10.
  assert (Hs3 : forall s3,
             s3 = BlackjackGame.set_player_balance s2
                    (BlackjackGame.player_balance s2 + payout) \/
             s3 = BlackjackGame.set_total_won
                    (BlackjackGame.set_player_balance s2
                       (BlackjackGame.player_balance s2 + payout))
                    (BlackjackGame.total_won
                       (BlackjackGame.set_player_balance s2
                          (BlackjackGame.player_balance s2 + payout)) + payout) ->
             BlackjackGame.starting_balance s3 = BlackjackGame.starting_balance s2 /\
             BlackjackGame.current_bet s3 = BlackjackGame.current_bet s2 /\
             BlackjackGame.total_wagered s3 = BlackjackGame.total_wagered s2 /\
             counters s3 = counters s2)
    by (intros s3 [-> | ->]; repeat split).
  destruct (Hs3 self') as [Ha [Hb [Hc Hd]]].
  { destruct (num_pos m); injection H as <- _; [right | left]; reflexivity. }
  unfold counters in Hd. injection Hd as Hd1 Hd2 Hd3 Hd4 Hd5.
  repeat split; try lia.
  exists pv. split; [exact Hpv | lia].
Qed.

(** X13: What a pass that ends has done to the ledger.  The total wagered is
    up by the bet the pass ended with, which is positive; at most one
    of wins, losses and pushes is up, by one; a blackjack is counted only
    with a win; no counter is down; [starting_balance] is as it was. *)
Theorem round_books_one_bet
        (fuel : nat) (lines rest : list string) (f : BlackjackGame.flow)
        (self self' : BlackjackGame.t) (g g' : rng) :
  BlackjackGame.round rng shuffle fuel lines self g = Ok (f, self', g', rest) ->
  0 < BlackjackGame.current_bet self' /\
  BlackjackGame.total_wagered self'
  = BlackjackGame.total_wagered self + BlackjackGame.current_bet self' /\
  BlackjackGame.starting_balance self' = BlackjackGame.starting_balance self /\
  0 <= BlackjackGame.wins self' - BlackjackGame.wins self /\
  0 <= BlackjackGame.losses self' - BlackjackGame.losses self /\
  0 <= BlackjackGame.pushes self' - BlackjackGame.pushes self /\
  (BlackjackGame.wins self' - BlackjackGame.wins self)
  + (BlackjackGame.losses self' - BlackjackGame.losses self)
  + (BlackjackGame.pushes self' - BlackjackGame.pushes self) <= 1 /\
  0 <= BlackjackGame.blackjacks self' - BlackjackGame.blackjacks self
  <= BlackjackGame.wins self' - BlackjackGame.wins self /\
  0 <= BlackjackGame.busts self' - BlackjackGame.busts self.
Proof.
  unfold BlackjackGame.round. intros H.
  apply bind_Ok in H as [[s1 l1] [Hbet H]].
  apply get_bet_accepts in Hbet as [bet [Hb ->]].
  apply bind_Ok in H as [[s2 g2] [Hdeal H]].
  apply start_round_ledger in Hdeal. unfold ledger in Hdeal; cbn in Hdeal.
  injection Hdeal as D1 D2 D3 D4 D5 D6 D7 D8 D9 D10.
  apply bind_Ok in H as [[|] [_ H]].
  - apply bind_Ok in H as [[|] [_ H]]; injection H as _ <- _ _;
      cbn -[Z.add Z.sub]; repeat split; lia.
  - apply bind_Ok in H as [[|] [_ H]].
    + apply bind_Ok in H as [w [_ H]]. injection H as _ <- _ _.
      cbn -[Z.add Z.sub]; repeat split; lia.
    + apply bind_Ok in H as [[[[bust s3] g3] l3] [Hturn H]].
      pose proof (player_turn_counters _ _ _ _ _ _ _ _ _ _ Hturn) as Hcnt.
      apply player_turn_wager in Hturn as [T1 [_ [T3 [_ [_ T6]]]]].
      unfold counters in Hcnt. injection Hcnt as C1 C2 C3 C4 C5.
      apply bind_Ok in H as [[s5 g5] [Hsettle H]].
      assert (Hsame : self' = s5).
      { unfold BlackjackGame.play_again in H.
        destruct (BlackjackGame.player_balance s5 <=? 0);
          [injection H as _ <- _ _; reflexivity |].
        destruct l3 as [| l l3]; [discriminate |].
        destruct (negb (String.eqb (lower l) "y"));
          injection H as _ <- _ _; reflexivity. }
      subst self'. destruct bust; cbn [negb] in Hsettle.
      * injection Hsettle as <- _. repeat split; lia.
      * apply settle_frame in Hsettle
          as [S1 [S2 [S3 [S4 [S5 [S6 [S7 [S8 [pv [_ S9]]]]]]]]]].
        destruct (21 <? pv); repeat split; lia.
Qed.

End Round.

Lemma round_books_one_bet_witness :
  0 < 200 /\ 200 = 0 + 200 /\ 1000 = 1000 /\
  0 <= 1 - 0 /\ 0 <= 0 - 0 /\ 0 <= 0 - 0 /\
  (1 - 0) + (0 - 0) + (0 - 0) <= 1 /\
  0 <= 0 - 0 <= 1 - 0 /\ 0 <= 0 - 0.
Proof.
  apply (round_books_one_bet stacked stack_shuffle 17
           ["100"; "D"; "n"] [] BlackjackGame.Break
           (opening eleven)
           (BlackjackGame.mk
              (Deck.mk (firstn 307 (Deck.cards (stacked_shoe eleven))) 6)
              (Hand.mk [card HEARTS "5"; card SPADES "6"; card HEARTS "K"])
              (Hand.mk [card CLUBS "9"; card DIAMONDS "8"])
              1200 1000 200 1 0 0 0 0 200 400)
           eleven eleven).
  vm_compute. reflexivity.
Defined.

(** ** What can stop the game *)





Section Safety.

Variable rng : Type.
Variable shuffle : rng -> list Card.t -> list Card.t * rng.

Hypothesis shuffle_perm :
  forall (g : rng) (l : list Card.t), Permutation (fst (shuffle g l)) l.







End Safety.




(** ** What is shown *)

Lemma append_length (a b : string) :
  String.length (a ++ b)%string = (String.length a + String.length b)%nat.
Proof.
  induction a as [| c a IH]; cbn; [reflexivity | rewrite IH; reflexivity].
Qed.

Lemma append_cancel_l (p a b : string) :
  (p ++ a = p ++ b)%string -> a = b.
Proof.
  induction p as [| c p IH]; cbn; intros H; [exact H |].
  injection H as H. exact (IH H).
Qed.

Lemma append_cancel_r (a b r : string) :
  (a ++ r = b ++ r)%string -> a = b.
Proof.
  revert b; induction a as [| c a IH]; intros [| c' b] H.
  - reflexivity.
  - apply (f_equal String.length) in H. cbn in H.
    rewrite append_length in H. lia.
  - apply (f_equal String.length) in H. cbn in H.
    rewrite append_length in H. lia.
  - cbn in H. injection H as -> H. f_equal. exact (IH _ H).
Qed.

Lemma valid_card_in_deck (c : Card.t) :
  valid_card c = true -> In c fresh_deck.
Proof.
  intros Hvalid. pose proof (copies_fresh_deck c) as Hc. rewrite Hvalid in Hc.
  unfold copies in Hc.
  destruct (filter (Card_eqb c) fresh_deck) as [| x l] eqn:E; [discriminate |].
  assert (Hin : In x (filter (Card_eqb c) fresh_deck)) by (rewrite E; left; reflexivity).
  apply filter_In in Hin as [Hin Heq]. apply Card_eqb_eq in Heq; subst x. exact Hin.
Qed.

Lemma Card_str_valid (c : Card.t) :
  valid_card c = true -> exists s, Card_str c = inr s.
Proof.
  unfold valid_card, valid_suit, pyval_in, Card_str. intros H.
  apply andb_true_iff in H as [H _]. apply existsb_exists in H as [x [Hx He]].
  apply pyval_eqb_eq in He; subst x.
  apply in_map_iff in Hx as [s [<- _]]. eexists; reflexivity.
Qed.

Lemma Card_strs_valid (cs : list Card.t) :
  valid_cards cs -> exists l, Card_strs cs = inr l.
Proof.
  induction 1 as [| c cs Hc _ [l IH]]; cbn [Card_strs].
  - eexists; reflexivity.
  - destruct (Card_str_valid c Hc) as [s ->]. rewrite IH. eexists; reflexivity.
Qed.

Lemma Card_str_apart (c c' : Card.t) :
  valid_card c = true -> valid_card c' = true ->
  Card_str c = Card_str c' -> c = c'.
Proof.
  intros Hc Hc' Heq.
  assert (Hall : forallb
                   (fun x => forallb
                      (fun y => implb
                         match Card_str x, Card_str y with
                         | inr a, inr b => String.eqb a b
                         | _, _ => true
                         end (Card_eqb x y)) fresh_deck) fresh_deck = true)
    by (vm_compute; reflexivity).
  rewrite forallb_forall in Hall.
  specialize (Hall c (valid_card_in_deck c Hc)).
  rewrite forallb_forall in Hall.
  specialize (Hall c' (valid_card_in_deck c' Hc')).
  destruct (Card_str_valid c Hc) as [s Hs].
  rewrite <- Heq, Hs, String.eqb_refl in Hall. cbn [implb] in Hall.
  apply Card_eqb_eq; exact Hall.
Qed.

(** X16: On the 52 cards of the shoe [__str__] never fails and tells the
    cards apart: two of them that are printed alike are the same card.
    On any card at all it fails, with [AttributeError], exactly when the
    suit is no member of [Suit]; a rank that is no rank is printed as it
    is. *)
Theorem Card_str_tells_cards_apart :
  (forall c c' : Card.t,
      valid_card c = true -> valid_card c' = true ->
      exists s s', Card_str c = inr s /\ Card_str c' = inr s' /\
                   (s = s' -> c = c')) /\
  (forall c : Card.t,
      valid_suit (Card.suit c) = false <-> Card_str c = inl AttributeError) /\
  (forall c : Card.t,
      valid_suit (Card.suit c) = true <-> exists s, Card_str c = inr s).
Proof.
  split; [| split].
  - intros c c' Hc Hc'.
    destruct (Card_str_valid c Hc) as [s Hs].
    destruct (Card_str_valid c' Hc') as [s' Hs'].
    exists s, s'. split; [exact Hs |]. split; [exact Hs' |].
    intros ->. apply Card_str_apart; try assumption. congruence.
  - intros [su r]; unfold Card_str; cbn [Card.suit Card.rank].
    destruct su as [[] | x | z]; cbn; split; intros H;
      (reflexivity || discriminate).
  - intros [su r]; unfold Card_str; cbn [Card.suit Card.rank].
    destruct su as [[] | x | z]; cbn; split; intros H;
      try reflexivity; try discriminate;
      try (eexists; reflexivity); destruct H as [s H]; discriminate.
Qed.

Lemma Card_str_tells_cards_apart_witness :
  exists s s',
    Card_str (card HEARTS "10") = inr s /\ Card_str (card HEARTS "J") = inr s' /\
    (s = s' -> card HEARTS "10" = card HEARTS "J").
Proof.
  apply (proj1 Card_str_tells_cards_apart); reflexivity.
Defined.

(** X17: With both hands holding cards of the shoe, [display_state()] writes
    all its lines, and the text it writes with [show_dealer_hole=False]
    gives the dealer's second card away: with another card in its place
    the text is another, although it says that one card is hidden. *)
Theorem display_state_shows_hole_card
        (self : BlackjackGame.t) (d1 d2 d2' : Card.t) :
  BlackjackGame.dealer_hand self = Hand.mk [d1; d2] ->
  valid_card d1 = true -> valid_card d2 = true -> valid_card d2' = true ->
  valid_cards (Hand.cards (BlackjackGame.player_hand self)) ->
  d2 <> d2' ->
  snd (display_state false self) = None /\
  fst (display_state false self) <>
  fst (display_state false
         (BlackjackGame.set_dealer_hand self (Hand.mk [d1; d2']))).
Proof.
  intros Hd H1 H2 H2' Hp Hne.
  destruct (Card_str_valid d1 H1) as [s1 Hs1].
  destruct (Card_str_valid d2 H2) as [s2 Hs2].
  destruct (Card_str_valid d2' H2') as [s2' Hs2'].
  destruct (Card_strs_valid _ Hp) as [lp Hlp].
  destruct (valid_hand_value _ Hp) as [pv [Hpv _]].
  unfold display_state.
  cbn [BlackjackGame.set_dealer_hand BlackjackGame.dealer_hand
       BlackjackGame.player_hand BlackjackGame.player_balance
       BlackjackGame.current_bet].
  rewrite Hd. unfold Hand_str, value_text; cbn [Hand.cards Card_strs].
  rewrite Hs1, Hs2, Hs2', Hlp, Hpv.
  cbn [fst snd String.concat]. split; [reflexivity |].
  intros Heq.
  apply append_cancel_r, append_cancel_r, append_cancel_l, append_cancel_l,
    append_cancel_l, append_cancel_l in Heq.
  apply Hne, Card_str_apart; try assumption. congruence.
Qed.

Lemma display_state_shows_hole_card_witness :
  snd (display_state false eleven_dealt) = None /\
  fst (display_state false eleven_dealt) <>
  fst (display_state false
         (BlackjackGame.set_dealer_hand eleven_dealt
            (Hand.mk [card CLUBS "9"; card DIAMONDS "7"]))).
Proof.
  apply (display_state_shows_hole_card eleven_dealt
           (card CLUBS "9") (card DIAMONDS "8") (card DIAMONDS "7")).
  - reflexivity.
  - reflexivity.
  - reflexivity.
  - reflexivity.
  - repeat constructor.
  - discriminate.
Defined.
